(** * Managed-cluster service of cluster-api-provider-azure

    A shallow embedding of [cloud/services/managedclusters/managedclusters.go]
    (type [Spec], type [PoolSpec], and the methods [Get], [GetCredentials],
    [Reconcile] and [Delete] of [Service]), together with the parts of the Go
    standard library the file calls ([net.ParseCIDR], [net.IP.String],
    [strings.EqualFold], [fmt.Errorf], [errors.New], [errors.Wrapf]).

    Go strings are byte strings: they are modelled by [string] (a list of
    8-bit characters).  Bytes and machine integers are modelled by [Z]. *)

From Stdlib Require Import ZArith Ascii String.
From stdpp Require Import base numbers list strings gmap.

Local Open Scope Z_scope.

(** ** Byte strings *)

Module GoString.

(** [len(s)] *)
Definition len (s : string) : nat := String.length s.

(** [s[n:]], for [n <= len(s)] (the only way the modelled code slices). *)
Fixpoint from (n : nat) (s : string) : string :=
  match n, s with
  | O, _ => s
  | S n', String _ s' => from n' s'
  | S _, EmptyString => EmptyString
  end.

(** [s[n]] as a byte; [None] when out of range (Go panics there). *)
Definition at_ (n : nat) (s : string) : option ascii := String.get n s.

Definition byte_of (c : ascii) : Z := Z.of_nat (nat_of_ascii c).
Definition char_of (b : Z) : ascii := ascii_of_nat (Z.to_nat b).

(** [strings.Contains(s, sub)]: used to state what a message mentions. *)
Fixpoint contains (s sub : string) : bool :=
  String.prefix sub s
  || match s with
     | EmptyString => false
     | String _ s' => contains s' sub
     end.

(** [bytealg.IndexByteString(s, c)], as the split it is used for:
    [Some (s[:i], s[i+1:])] for the first index [i] holding [c]. *)
Fixpoint cut (c : ascii) (s : string) : option (string * string) :=
  match s with
  | EmptyString => None
  | String a s' =>
      if Ascii.eqb a c then Some (EmptyString, s')
      else match cut c s' with
           | Some (l, r) => Some (String a l, r)
           | None => None
           end
  end.

End GoString.

(** ** Go's [error] values

    The constructors are the concrete error types that reach the callers of
    this package. *)

Inductive error : Type :=
  | errorString (s : string)
      (** [errors.New(s)] of the standard library and of [github.com/pkg/errors]
          (whose recorded stack is not modelled), and [fmt.Errorf] without
          a [%w] verb *)
  | wrapError (msg : string) (err : error)
      (** [fmt.Errorf] with one [%w] verb: [msg] is the whole formatted text *)
  | withMessage (cause : error) (msg : string)
      (** [errors.Wrapf(cause, ...)] of [github.com/pkg/errors]: a [withStack]
          around a [withMessage]; the stack is not modelled *)
  | ParseError (Type_ Text : string)
      (** [*net.ParseError] *)
  | DetailedError (Message : string) (StatusCode : Z)
      (** an error made by the provider client (such as
          [autorest.DetailedError]): its [Error()] text and its HTTP status
          code *).

(** [err.Error()] *)
Fixpoint Error (e : error) : string :=
  match e with
  | errorString s => s
  | wrapError msg _ => msg
  | withMessage cause msg => msg +:+ ": " +:+ Error cause
  | ParseError ty text => "invalid " +:+ ty +:+ ": " +:+ text
  | DetailedError m _ => m
  end.

(** ** Package [net] of the Go standard library (as of Go 1.13/1.14, the
    toolchain of this revision of the repository) *)

Module net.
Import GoString.

Definition IPv4len : nat := 4.
Definition IPv6len : nat := 16.

(** An [IP] is a byte slice; the nil slice is the empty list. *)
Abbreviation IP := (list Z) (only parsing).
Abbreviation IPMask := (list Z) (only parsing).
Record IPNet := { IPNet_IP : IP; IPNet_Mask : IPMask }.

Definition big : Z := 0xFFFFFF.

Definition isDigit (c : ascii) : bool :=
  (byte_of "0"%char <=? byte_of c) && (byte_of c <=? byte_of "9"%char).

(** [dtoi]: decimal to integer; number, characters consumed, success. *)
Fixpoint dtoi_loop (s : string) (n : Z) (i : nat) : Z * nat * bool :=
  match s with
  | String c s' =>
      if isDigit c then
        let n := n * 10 + (byte_of c - byte_of "0"%char) in
        if big <=? n then (big, i, false)
        else dtoi_loop s' n (S i)
      else if (i =? 0)%nat then (0, O, false) else (n, i, true)
  | EmptyString => if (i =? 0)%nat then (0, O, false) else (n, i, true)
  end.

Definition dtoi (s : string) : Z * nat * bool := dtoi_loop s 0 O.

(** The value of a hexadecimal digit, if [c] is one. *)
Definition hexval (c : ascii) : option Z :=
  let b := byte_of c in
  if (byte_of "0"%char <=? b) && (b <=? byte_of "9"%char) then Some (b - byte_of "0"%char)
  else if (byte_of "a"%char <=? b) && (b <=? byte_of "f"%char) then Some (b - byte_of "a"%char + 10)
  else if (byte_of "A"%char <=? b) && (b <=? byte_of "F"%char) then Some (b - byte_of "A"%char + 10)
  else None.

(** [xtoi]: hexadecimal to integer; number, characters consumed, success. *)
Fixpoint xtoi_loop (s : string) (n : Z) (i : nat) : Z * nat * bool :=
  match s with
  | String c s' =>
      match hexval c with
      | Some d =>
          let n := n * 16 + d in
          if big <=? n then (0, i, false)
          else xtoi_loop s' n (S i)
      | None => if (i =? 0)%nat then (0, i, false) else (n, i, true)
      end
  | EmptyString => if (i =? 0)%nat then (0, i, false) else (n, i, true)
  end.

Definition xtoi (s : string) : Z * nat * bool := xtoi_loop s 0 O.

Definition v4InV6Prefix : list Z := [0; 0; 0; 0; 0; 0; 0; 0; 0; 0; 0xff; 0xff].

(** [IPv4(a, b, c, d)]: the 16-byte form of an IPv4 address. *)
Definition IPv4 (a b c d : Z) : IP := v4InV6Prefix ++ [a; b; c; d].

(** [parseIPv4]: the loop [for i := 0; i < IPv4len; i++], by recursion on
    the number [k = IPv4len - i] of octets left; [p] is the array
    [[IPv4len]byte]. *)
Fixpoint parseIPv4_loop (k i : nat) (s : string) (p : list Z) : option IP :=
  match k with
  | O =>
      if (len s =? 0)%nat
      then Some (IPv4 (nth 0 p 0) (nth 1 p 0) (nth 2 p 0) (nth 3 p 0))
      else None
  | S k' =>
      if (len s =? 0)%nat then None (* missing octets *)
      else
        let dot :=
          if (0 <? i)%nat then
            match s with
            | String "."%char s' => Some s'
            | _ => None
            end
          else Some s in
        match dot with
        | None => None
        | Some s =>
            let '(n, c, ok) := dtoi s in
            if negb ok || (0xFF <? n) then None
            else parseIPv4_loop k' (S i) (from c s) (<[i := n]> p)
        end
  end.

Definition parseIPv4 (s : string) : option IP :=
  parseIPv4_loop IPv4len 0 s [0; 0; 0; 0].

(** The state of the main loop of [parseIPv6] when it is left. *)
Record v6state := { v6_ip : IP; v6_ellipsis : option nat; v6_i : nat; v6_s : string }.

(** The loop [for i < IPv6len] of [parseIPv6].  Every iteration that
    continues adds 2 to [i], so 8 rounds of [fuel] let the loop run until its
    condition fails.  [ellipsis] is [None] for the source's [-1].  The result
    is [None] where the source returns nil. *)
Fixpoint parseIPv6_loop (fuel : nat) (ip : IP) (ellipsis : option nat)
    (i : nat) (s : string) : option v6state :=
  let exit ip ellipsis i s :=
    Some {| v6_ip := ip; v6_ellipsis := ellipsis; v6_i := i; v6_s := s |} in
  match fuel with
  | O => exit ip ellipsis i s
  | S fuel' =>
      if negb (i <? IPv6len)%nat then exit ip ellipsis i s
      else
        (* Hex number. *)
        let '(n, c, ok) := xtoi s in
        if negb ok || (0xFFFF <? n) then None
        else if (c <? len s)%nat && bool_decide (at_ c s = Some "."%char) then
          (* Followed by a dot: might be in trailing IPv4. *)
          if bool_decide (ellipsis = None) && negb (i =? IPv6len - IPv4len)%nat
          then None
          else if (IPv6len <? i + IPv4len)%nat then None
          else
            match parseIPv4 s with
            | None => None
            | Some ip4 =>
                let ip := <[i := nth 12 ip4 0]> ip in
                let ip := <[(i + 1)%nat := nth 13 ip4 0]> ip in
                let ip := <[(i + 2)%nat := nth 14 ip4 0]> ip in
                let ip := <[(i + 3)%nat := nth 15 ip4 0]> ip in
                exit ip ellipsis (i + IPv4len)%nat EmptyString
            end
        else
          (* Save this 16-bit chunk. *)
          let ip := <[i := Z.shiftr n 8]> ip in
          let ip := <[(i + 1)%nat := Z.land n 0xFF]> ip in
          let i := (i + 2)%nat in
          (* Stop at end of string. *)
          let s := from c s in
          if (len s =? 0)%nat then exit ip ellipsis i s
          else
            (* Otherwise must be followed by colon and more. *)
            if negb (bool_decide (at_ 0 s = Some ":"%char)) || (len s =? 1)%nat
            then None
            else
              let s := from 1 s in
              (* Look for ellipsis. *)
              if bool_decide (at_ 0 s = Some ":"%char) then
                match ellipsis with
                | Some _ => None (* already have one *)
                | None =>
                    let s := from 1 s in
                    if (len s =? 0)%nat then exit ip (Some i) i s (* can be at end *)
                    else parseIPv6_loop fuel' ip (Some i) i s
                end
              else parseIPv6_loop fuel' ip ellipsis i s
  end.

(** [for j := hi; j >= lo; j-- { ip = body j ip }] *)
Definition down_from (hi_excl lo : nat) (body : nat -> IP -> IP) (ip : IP) : IP :=
  foldl (fun ip j => body j ip) ip (rev (seq lo (hi_excl - lo))).

Definition parseIPv6 (s : string) : option IP :=
  let ip := replicate IPv6len 0 in
  (* Might have leading ellipsis. *)
  let lead := (2 <=? len s)%nat && bool_decide (at_ 0 s = Some ":"%char)
              && bool_decide (at_ 1 s = Some ":"%char) in
  let ellipsis := if lead then Some O else None in
  let s := if lead then from 2 s else s in
  if lead && (len s =? 0)%nat then Some ip (* might be only ellipsis *)
  else
    match parseIPv6_loop 8 ip ellipsis 0 s with
    | None => None
    | Some st =>
        let ip := v6_ip st in
        let i := v6_i st in
        (* Must have used entire string. *)
        if negb (len (v6_s st) =? 0)%nat then None
        else if (i <? IPv6len)%nat then
          (* If didn't parse enough, expand ellipsis. *)
          match v6_ellipsis st with
          | None => None
          | Some ellipsis =>
              let n := (IPv6len - i)%nat in
              let ip := down_from i ellipsis
                          (fun j ip => <[(j + n)%nat := nth j ip 0]> ip) ip in
              let ip := down_from (ellipsis + n) ellipsis
                          (fun j ip => <[j := 0]> ip) ip in
              Some ip
          end
        else
          match v6_ellipsis st with
          | Some _ => None (* ellipsis must represent at least one 0 group *)
          | None => Some ip
          end
    end.

(** [CIDRMask(ones, bits)] for [bits = 8 * l], [l] being [IPv4len] or
    [IPv6len], and [0 <= ones <= bits] (what [ParseCIDR] has checked). *)
Fixpoint CIDRMask_loop (l : nat) (n : Z) : IPMask :=
  match l with
  | O => []
  | S l' =>
      if 8 <=? n then 0xff :: CIDRMask_loop l' (n - 8)
      else Z.land (Z.lnot (Z.shiftr 0xff n)) 0xff :: CIDRMask_loop l' 0
  end.

Definition CIDRMask (ones : Z) (l : nat) : IPMask := CIDRMask_loop l ones.

Definition allFF (b : list Z) : bool := forallb (fun c => c =? 0xff) b.
Definition isZeros (p : list Z) : bool := forallb (fun c => c =? 0) p.

(** [ip.Mask(mask)]; the nil result is [[]]. *)
Definition Mask (ip : IP) (mask : IPMask) : IP :=
  let mask :=
    if (length mask =? IPv6len)%nat && (length ip =? IPv4len)%nat
       && allFF (take 12 mask)
    then drop 12 mask else mask in
  let ip :=
    if (length mask =? IPv4len)%nat && (length ip =? IPv6len)%nat
       && bool_decide (take 12 ip = v4InV6Prefix)
    then drop 12 ip else ip in
  if negb (length ip =? length mask)%nat then []
  else zip_with Z.land ip mask.

(** [ParseCIDR(s)]: the address as written, and the network it implies. *)
Definition ParseCIDR (s : string) : (IP * IPNet) + error :=
  let fail := inr (ParseError "CIDR address" s) in
  match cut "/"%char s with
  | None => fail
  | Some (addr, mask) =>
      let '(iplen, ip) :=
        match parseIPv4 addr with
        | Some ip => (IPv4len, Some ip)
        | None => (IPv6len, parseIPv6 addr)
        end in
      let '(n, i, ok) := dtoi mask in
      match ip with
      | None => fail
      | Some ip =>
          if negb ok || negb (i =? len mask)%nat || (n <? 0)
             || (8 * Z.of_nat iplen <? n)
          then fail
          else
            let m := CIDRMask n iplen in
            inl (ip, {| IPNet_IP := Mask ip m; IPNet_Mask := m |})
      end
  end.

(** [ip.To4()]; the nil result is [[]]. *)
Definition To4 (ip : IP) : IP :=
  if (length ip =? IPv4len)%nat then ip
  else if (length ip =? IPv6len)%nat && isZeros (take 10 ip)
          && (nth 10 ip 0 =? 0xff) && (nth 11 ip 0 =? 0xff)
  then drop 12 ip
  else [].

Definition digit (d : Z) : ascii := char_of (d + byte_of "0"%char).

(** [ubtoa]: the decimal text of a byte, without leading zeros. *)
Definition ubtoa (v : Z) : string :=
  if v <? 10 then String (digit v) EmptyString
  else if v <? 100 then String (digit (v / 10)) (String (digit (v mod 10)) EmptyString)
  else String (digit (v / 100))
         (String (digit ((v / 10) mod 10)) (String (digit (v mod 10)) EmptyString)).

Definition hexDigit (v : Z) : ascii :=
  if v <? 10 then char_of (v + byte_of "0"%char)
  else char_of (v - 10 + byte_of "a"%char).

(** [appendHex(dst, i)], as the text appended: [i] in hexadecimal, leading
    zeros not printed. *)
Definition appendHex (i : Z) : string :=
  if i =? 0 then "0"
  else
    foldl (fun dst j =>
             let v := Z.shiftr i (Z.of_nat j * 4) in
             if 0 <? v then dst +:+ String (hexDigit (Z.land v 0xf)) EmptyString
             else dst)
          EmptyString (rev (seq 0 8)).

(** [hexString(b)]: two hexadecimal digits per byte. *)
Definition hexString (b : list Z) : string :=
  fold_right
    (fun tn s => String (hexDigit (Z.shiftr tn 4))
                   (String (hexDigit (Z.land tn 0xf)) s))
    EmptyString b.

(** The inner loop [for j < IPv6len && p[j] == 0 && p[j+1] == 0 { j += 2 }]
    of [IP.String]. *)
Fixpoint zero_run (fuel : nat) (p : IP) (j : nat) : nat :=
  match fuel with
  | O => j
  | S fuel' =>
      if (j <? IPv6len)%nat && (nth j p 0 =? 0) && (nth (j + 1) p 0 =? 0)
      then zero_run fuel' p (j + 2)
      else j
  end.

(** The loop of [IP.String] that finds the longest run of zeros, [e0]
    to [e1]. *)
Fixpoint longest_run (fuel : nat) (p : IP) (i : nat) (e0 e1 : Z) : Z * Z :=
  match fuel with
  | O => (e0, e1)
  | S fuel' =>
      if negb (i <? IPv6len)%nat then (e0, e1)
      else
        let j := zero_run 8 p i in
        if (i <? j)%nat && (e1 - e0 <? Z.of_nat j - Z.of_nat i)
        then longest_run fuel' p (j + 2) (Z.of_nat i) (Z.of_nat j)
        else longest_run fuel' p (i + 2) e0 e1
  end.

(** The printing loop of [IP.String], with [::] in place of the run. *)
Fixpoint print_groups (fuel : nat) (p : IP) (e0 e1 : Z) (i : nat) (b : string)
    : string :=
  match fuel with
  | O => b
  | S fuel' =>
      if negb (i <? IPv6len)%nat then b
      else
        let group i := Z.lor (Z.shiftl (nth i p 0) 8) (nth (i + 1) p 0) in
        if Z.of_nat i =? e0 then
          let b := b +:+ "::" in
          let i := Z.to_nat e1 in
          if (IPv6len <=? i)%nat then b
          else print_groups fuel' p e0 e1 (i + 2) (b +:+ appendHex (group i))
        else
          let b := if (0 <? i)%nat then b +:+ ":" else b in
          print_groups fuel' p e0 e1 (i + 2) (b +:+ appendHex (group i))
  end.

(** [ip.String()] *)
Definition String_ (ip : IP) : string :=
  let p := ip in
  if (length ip =? 0)%nat then "<nil>"
  else
    let p4 := To4 p in
    if (length p4 =? IPv4len)%nat then
      (* If IPv4, use dotted notation. *)
      ubtoa (nth 0 p4 0) +:+ "." +:+ ubtoa (nth 1 p4 0) +:+ "."
      +:+ ubtoa (nth 2 p4 0) +:+ "." +:+ ubtoa (nth 3 p4 0)
    else if negb (length p =? IPv6len)%nat then "?" +:+ hexString ip
    else
      let '(e0, e1) := longest_run 8 p 0 (-1) (-1) in
      (* The symbol "::" MUST NOT be used to shorten just one 16 bit 0 field. *)
      let '(e0, e1) := if e1 - e0 <=? 2 then (-1, -1) else (e0, e1) in
      print_groups 8 p e0 e1 0 EmptyString.

(** [networkNumberAndMask(n)]; [None] is the source's [nil, nil]. *)
Definition networkNumberAndMask (n : IPNet) : option (IP * IPMask) :=
  let ip4 := To4 (IPNet_IP n) in
  let ip := if (length ip4 =? 0)%nat then IPNet_IP n else ip4 in
  if (length ip4 =? 0)%nat && negb (length ip =? IPv6len)%nat then None
  else
    let m := IPNet_Mask n in
    if (length m =? IPv4len)%nat then
      if negb (length ip =? IPv4len)%nat then None else Some (ip, m)
    else if (length m =? IPv6len)%nat then
      Some (ip, if (length ip =? IPv4len)%nat then drop 12 m else m)
    else None.

(** [n.Contains(ip)] *)
Definition Contains (n : IPNet) (ip : IP) : bool :=
  match networkNumberAndMask n with
  | None => false
  | Some (nn, m) =>
      let x := To4 ip in
      let ip := if negb (length x =? 0)%nat then x else ip in
      if negb (length ip =? length nn)%nat then false
      else
        forallb (fun i => Z.land (nth i nn 0) (nth i m 0)
                          =? Z.land (nth i ip 0) (nth i m 0))
                (seq 0 (length ip))
  end.

End net.

(** ** Package [strings] of the Go standard library *)

Module strings.
Import GoString.

Definition RuneSelf : Z := 0x80.

(** [strings.EqualFold(s, t)] for an operand [t] made of ASCII letters other
    than K and S, which is how this package calls it (["Azure"],
    ["Calico"]).  The loop takes one rune from each string.  Two equal
    runes match (the easy case); two distinct ASCII runes match when they are
    the upper and lower case of one letter (the fast check for ASCII).  A
    rune of [s] outside ASCII meets an ASCII rune of [t] in the general case:
    [unicode.SimpleFold] cycles through the case orbit of the ASCII letter,
    which for letters other than K and S holds its two ASCII forms only, so
    the runes do not match. *)
Fixpoint EqualFold (s t : string) : bool :=
  match s, t with
  | String a s', String b t' =>
      let sr := byte_of a in
      let tr := byte_of b in
      if tr =? sr then EqualFold s' t'
      else
        (* Make sr < tr to simplify what follows. *)
        let '(sr, tr) := if tr <? sr then (tr, sr) else (sr, tr) in
        if tr <? RuneSelf then
          (* ASCII only, sr/tr must be upper/lower case *)
          if (byte_of "A"%char <=? sr) && (sr <=? byte_of "Z"%char)
             && (tr =? sr + byte_of "a"%char - byte_of "A"%char)
          then EqualFold s' t'
          else false
        else false
  | _, _ =>
      (* One string is empty. Are both? *)
      bool_decide (s = t)
  end.

End strings.

(** ** The specification types of package [managedclusters] *)

(** [type PoolSpec struct] *)
Module PoolSpec.
Record t := {
  Name : string;
  SKU : string;
  Replicas : Z;      (* int32 *)
  OSDiskSizeGB : Z   (* int32 *)
}.

(** The zero value of the struct. *)
Definition zero : t :=
  {| Name := EmptyString; SKU := EmptyString; Replicas := 0; OSDiskSizeGB := 0 |}.
End PoolSpec.

(** [type Spec struct]: properties to create a managed cluster. *)
Module Spec.
Record t := {
  Name : string;
  ResourceGroup : string;
  Location : string;
  Tags : gmap string string;
  Version : string;
  LoadBalancerSKU : option string;   (* *string *)
  NetworkPlugin : option string;     (* *string *)
  NetworkPolicy : option string;     (* *string *)
  SSHPublicKey : string;
  AgentPools : list PoolSpec.t;
  PodCIDR : string;
  ServiceCIDR : string
}.
End Spec.

(** ** Memory

    The code takes the address of fields of the caller's [Spec], of the range
    variable [pool] and of the local [dnsIP], and hands these pointers to the
    provider client inside the resource.  Objects whose address is taken live
    in a heap; an address is an index into it. *)

Abbreviation addr := nat (only parsing).

Inductive object :=
  | ObjSpec (s : Spec.t)
  | ObjPoolSpec (p : PoolSpec.t)
  | ObjString (s : string).

Abbreviation heap := (list object) (only parsing).

(** The package-level variables of the file.  Nothing in the file assigns
    them. *)
Definition defaultUser : string := "azureuser".
Definition managedIdentity : string := "msi".

(** The string fields of [Spec] whose address [Reconcile] takes. *)
Inductive spec_field :=
  | F_Name | F_Location | F_Version | F_SSHPublicKey | F_PodCIDR | F_ServiceCIDR.

Definition spec_get (f : spec_field) (s : Spec.t) : string :=
  match f with
  | F_Name => Spec.Name s
  | F_Location => Spec.Location s
  | F_Version => Spec.Version s
  | F_SSHPublicKey => Spec.SSHPublicKey s
  | F_PodCIDR => Spec.PodCIDR s
  | F_ServiceCIDR => Spec.ServiceCIDR s
  end.

(** Values of type [*string]. *)
Inductive strptr :=
  | AddrSpecField (a : addr) (f : spec_field)  (** [&managedClusterSpec.f] *)
  | AddrPoolName (a : addr)                    (** [&pool.Name] *)
  | AddrString (a : addr)                      (** [&dnsIP] *)
  | AddrDefaultUser                            (** [&defaultUser] *)
  | AddrManagedIdentity.                       (** [&managedIdentity] *)

(** Values of type [*int32]. *)
Inductive i32ptr :=
  | AddrPoolOSDiskSizeGB (a : addr)            (** [&pool.OSDiskSizeGB] *)
  | AddrPoolReplicas (a : addr).               (** [&pool.Replicas] *)

Definition load_spec (h : heap) (a : addr) : option Spec.t :=
  match h !! a with
  | Some (ObjSpec s) => Some s
  | _ => None
  end.

Definition load_pool (h : heap) (a : addr) : option PoolSpec.t :=
  match h !! a with
  | Some (ObjPoolSpec p) => Some p
  | _ => None
  end.

(** [*p] for [p : *string] *)
Definition load_str (h : heap) (p : strptr) : option string :=
  match p with
  | AddrSpecField a f => spec_get f <$> load_spec h a
  | AddrPoolName a => PoolSpec.Name <$> load_pool h a
  | AddrString a =>
      match h !! a with
      | Some (ObjString s) => Some s
      | _ => None
      end
  | AddrDefaultUser => Some defaultUser
  | AddrManagedIdentity => Some managedIdentity
  end.

(** [*p] for [p : *int32] *)
Definition load_i32 (h : heap) (p : i32ptr) : option Z :=
  match p with
  | AddrPoolOSDiskSizeGB a => PoolSpec.OSDiskSizeGB <$> load_pool h a
  | AddrPoolReplicas a => PoolSpec.Replicas <$> load_pool h a
  end.

(** ** The resource types of the provider SDK
    ([containerservice], API version 2020-02-01)

    Only the fields this package sets are kept.  The structs are parametric
    in the types [PS] of [*string] and [PI] of [*int32]: at [strptr] and
    [i32ptr] they are the Go structs; at [string] and [Z] they are what
    the provider client reads through the pointers.  A nil pointer is [None].
    Pointers to nested structs, which [Reconcile] allocates itself and shares
    with nothing, are inlined. *)

Module containerservice.

(** Enumeration constants (all are string types in the SDK). *)
Definition SystemAssigned : string := "SystemAssigned".
Definition Azure : string := "azure".                  (* NetworkPlugin *)
Definition Kubenet : string := "kubenet".
Definition NetworkPolicyAzure : string := "azure".     (* NetworkPolicy *)
Definition NetworkPolicyCalico : string := "calico".
Definition Standard : string := "standard".            (* LoadBalancerSku *)
Definition Basic : string := "basic".
Definition VirtualMachineScaleSets : string := "VirtualMachineScaleSets".

Section Structs.
Context {PS PI : Type}.

Record ManagedClusterAgentPoolProfile := {
  Name : option PS;
  VMSize : string;
  OsDiskSizeGB : option PI;
  Count : option PI;
  Type_ : string
}.

Record NetworkProfileType := {
  NetworkPlugin : string;
  NetworkPolicy : string;       (* the empty string, its zero value, is "not set" *)
  PodCidr : option PS;
  ServiceCidr : option PS;
  DNSServiceIP : option PS;
  LoadBalancerSku : string
}.

Record LinuxProfile := {
  AdminUsername : option PS;
  SSH_PublicKeys : list (option PS)   (* SSH.PublicKeys[i].KeyData *)
}.

Record ManagedClusterProperties := {
  DNSPrefix : option PS;
  KubernetesVersion : option PS;
  LinuxProfile_ : LinuxProfile;
  ServicePrincipalProfile_ClientID : option PS;
  AgentPoolProfiles : list ManagedClusterAgentPoolProfile;
  NetworkProfile : NetworkProfileType
}.

Record ManagedCluster := {
  Identity_Type : string;
  Location : option PS;
  Properties : ManagedClusterProperties
}.

(** Assignments to the fields that [Reconcile] updates after it has built
    the struct. *)
Definition with_NetworkProfile (f : NetworkProfileType -> NetworkProfileType)
    (mc : ManagedCluster) : ManagedCluster :=
  let p := Properties mc in
  {| Identity_Type := Identity_Type mc;
     Location := Location mc;
     Properties :=
       {| DNSPrefix := DNSPrefix p;
          KubernetesVersion := KubernetesVersion p;
          LinuxProfile_ := LinuxProfile_ p;
          ServicePrincipalProfile_ClientID := ServicePrincipalProfile_ClientID p;
          AgentPoolProfiles := AgentPoolProfiles p;
          NetworkProfile := f (NetworkProfile p) |} |}.

Definition with_AgentPoolProfiles
    (f : list ManagedClusterAgentPoolProfile -> list ManagedClusterAgentPoolProfile)
    (mc : ManagedCluster) : ManagedCluster :=
  let p := Properties mc in
  {| Identity_Type := Identity_Type mc;
     Location := Location mc;
     Properties :=
       {| DNSPrefix := DNSPrefix p;
          KubernetesVersion := KubernetesVersion p;
          LinuxProfile_ := LinuxProfile_ p;
          ServicePrincipalProfile_ClientID := ServicePrincipalProfile_ClientID p;
          AgentPoolProfiles := f (AgentPoolProfiles p);
          NetworkProfile := NetworkProfile p |} |}.

Definition set_NetworkPlugin (v : string) (n : NetworkProfileType) :=
  {| NetworkPlugin := v; NetworkPolicy := NetworkPolicy n;
     PodCidr := PodCidr n; ServiceCidr := ServiceCidr n;
     DNSServiceIP := DNSServiceIP n; LoadBalancerSku := LoadBalancerSku n |}.

Definition set_NetworkPolicy (v : string) (n : NetworkProfileType) :=
  {| NetworkPlugin := NetworkPlugin n; NetworkPolicy := v;
     PodCidr := PodCidr n; ServiceCidr := ServiceCidr n;
     DNSServiceIP := DNSServiceIP n; LoadBalancerSku := LoadBalancerSku n |}.

Definition set_PodCidr (v : option PS) (n : NetworkProfileType) :=
  {| NetworkPlugin := NetworkPlugin n; NetworkPolicy := NetworkPolicy n;
     PodCidr := v; ServiceCidr := ServiceCidr n;
     DNSServiceIP := DNSServiceIP n; LoadBalancerSku := LoadBalancerSku n |}.

Definition set_ServiceCidr (v : option PS) (n : NetworkProfileType) :=
  {| NetworkPlugin := NetworkPlugin n; NetworkPolicy := NetworkPolicy n;
     PodCidr := PodCidr n; ServiceCidr := v;
     DNSServiceIP := DNSServiceIP n; LoadBalancerSku := LoadBalancerSku n |}.

Definition set_DNSServiceIP (v : option PS) (n : NetworkProfileType) :=
  {| NetworkPlugin := NetworkPlugin n; NetworkPolicy := NetworkPolicy n;
     PodCidr := PodCidr n; ServiceCidr := ServiceCidr n;
     DNSServiceIP := v; LoadBalancerSku := LoadBalancerSku n |}.

Definition set_LoadBalancerSku (v : string) (n : NetworkProfileType) :=
  {| NetworkPlugin := NetworkPlugin n; NetworkPolicy := NetworkPolicy n;
     PodCidr := PodCidr n; ServiceCidr := ServiceCidr n;
     DNSServiceIP := DNSServiceIP n; LoadBalancerSku := v |}.
End Structs.

Arguments ManagedClusterAgentPoolProfile : clear implicits.
Arguments NetworkProfileType : clear implicits.
Arguments LinuxProfile : clear implicits.
Arguments ManagedClusterProperties : clear implicits.
Arguments ManagedCluster : clear implicits.

End containerservice.

(** The resource as [Reconcile] builds it, and as the client reads it. *)
Abbreviation ManagedClusterPtr := (containerservice.ManagedCluster strptr i32ptr).
Abbreviation ManagedClusterVal := (containerservice.ManagedCluster string Z).

(** Reading a resource through its pointers in heap [h]: [None] if a pointer
    does not point to an object of its type (which Go excludes). *)
Module read.
Import containerservice.

Definition str (h : heap) (p : option strptr) : option (option string) :=
  match p with
  | None => Some None
  | Some p => Some <$> load_str h p
  end.

Definition i32 (h : heap) (p : option i32ptr) : option (option Z) :=
  match p with
  | None => Some None
  | Some p => Some <$> load_i32 h p
  end.

Definition pool (h : heap) (p : ManagedClusterAgentPoolProfile strptr i32ptr)
    : option (ManagedClusterAgentPoolProfile string Z) :=
  n ← str h (Name p);
  d ← i32 h (OsDiskSizeGB p);
  c ← i32 h (Count p);
  Some {| Name := n; VMSize := VMSize p; OsDiskSizeGB := d; Count := c;
          Type_ := Type_ p |}.

Definition network (h : heap) (n : NetworkProfileType strptr)
    : option (NetworkProfileType string) :=
  pc ← str h (PodCidr n);
  sc ← str h (ServiceCidr n);
  dns ← str h (DNSServiceIP n);
  Some {| NetworkPlugin := NetworkPlugin n; NetworkPolicy := NetworkPolicy n;
          PodCidr := pc; ServiceCidr := sc; DNSServiceIP := dns;
          LoadBalancerSku := LoadBalancerSku n |}.

Definition linux (h : heap) (l : LinuxProfile strptr)
    : option (LinuxProfile string) :=
  u ← str h (AdminUsername l);
  ks ← mapM (str h) (SSH_PublicKeys l);
  Some {| AdminUsername := u; SSH_PublicKeys := ks |}.

Definition managedCluster (h : heap) (mc : ManagedClusterPtr)
    : option ManagedClusterVal :=
  let p := Properties mc in
  loc ← str h (Location mc);
  dp ← str h (DNSPrefix p);
  kv ← str h (KubernetesVersion p);
  lp ← linux h (LinuxProfile_ p);
  cid ← str h (ServicePrincipalProfile_ClientID p);
  pools ← mapM (pool h) (AgentPoolProfiles p);
  np ← network h (NetworkProfile p);
  Some {| Identity_Type := Identity_Type mc;
          Location := loc;
          Properties :=
            {| DNSPrefix := dp; KubernetesVersion := kv; LinuxProfile_ := lp;
               ServicePrincipalProfile_ClientID := cid;
               AgentPoolProfiles := pools; NetworkProfile := np |} |}.
End read.

(** ** Values of type [interface{}]

    The operations take the specification as an [interface{}].  A value of
    that type is nil, or a dynamic type with a value of it; the dynamic types
    listed after [*Spec] stand for all the others. *)

Inductive iface :=
  | Nil                                  (** the nil interface *)
  | PtrSpec (p : option addr)            (** a [*Spec]; [None] is the nil pointer of that type *)
  | ValSpec (s : Spec.t)                 (** a [Spec], not a pointer to one *)
  | PtrPoolSpec (p : option addr)        (** a [*PoolSpec] *)
  | ValString (s : string)               (** a [string] *)
  | ValInt (n : Z).                      (** an [int] *)

(** The type assertion of [spec] to [*Spec] in its two-result form: [Some p] when
    [ok] is true.  It looks at the dynamic type only, so it holds for the nil
    pointer of type [*Spec]. *)
Definition assert_PtrSpec (spec : iface) : option (option addr) :=
  match spec with
  | PtrSpec p => Some p
  | _ => None
  end.

(** ** The provider client *)

(** A call made on the provider client, with the resource as the client reads
    it at that moment. *)
Inductive call :=
  | CallGet (resourceGroup name : string)
  | CallGetCredentials (resourceGroup name : string)
  | CallCreateOrUpdate (resourceGroup name : string) (properties : ManagedClusterVal)
  | CallDelete (resourceGroup name : string).

(** Modelled from the spec: the [Service] struct and the interface of its
    [Client] field are declared in another file of the package.  Section 6 of
    the specification lists the operations the client must have:
    get(resourceGroup, name) -> (resource, error),
    createOrUpdate(resourceGroup, name, resource) -> error,
    delete(resourceGroup, name) -> error and
    getCredentials(resourceGroup, name) -> (bytes, error).
    The client is external: [W] is its state (the provider's side), which
    every operation may read and change, and [R] is the provider's
    representation of a cluster that [Get] hands back.  A nil [error] is
    [None]. *)
Record Client (W R : Type) := {
  Client_Get : string -> string -> W -> (R * option error) * W;
  Client_GetCredentials : string -> string -> W -> (list Z * option error) * W;
  Client_CreateOrUpdate : string -> string -> ManagedClusterVal -> W -> option error * W;
  Client_Delete : string -> string -> W -> option error * W
}.
Arguments Client_Get {W R}.
Arguments Client_GetCredentials {W R}.
Arguments Client_CreateOrUpdate {W R}.
Arguments Client_Delete {W R}.

(** ** Computations: state passing, with run-time panics *)

Record state (W : Type) := {
  st_heap : heap;
  st_world : W;
  st_calls : list call      (* the calls made on the client, oldest first *)
}.
Arguments st_heap {W}.
Arguments st_world {W}.
Arguments st_calls {W}.

Inductive outcome (A : Type) :=
  | Returns (a : A)
  | Panics (reason : string).
Arguments Returns {A}.
Arguments Panics {A}.

Definition nil_dereference : string :=
  "runtime error: invalid memory address or nil pointer dereference".
Definition index_out_of_range : string := "runtime error: index out of range".
(** Go has no dangling or mistyped pointers; the model stops with this reason
    on a heap that has one. *)
Definition ill_formed_heap : string := "ill-formed heap".

Definition M (W A : Type) : Type := state W -> outcome A * state W.

Definition ret {W A} (a : A) : M W A := fun st => (Returns a, st).

Definition bind {W A B} (m : M W A) (k : A -> M W B) : M W B :=
  fun st =>
    match m st with
    | (Returns a, st') => k a st'
    | (Panics r, st') => (Panics r, st')
    end.

Definition panic {W A} (reason : string) : M W A := fun st => (Panics reason, st).

Declare Scope go_scope.
Delimit Scope go_scope with go.
Notation "x <~ m ;; k" := (bind m (fun x => k))
  (at level 100, m at next level, right associativity) : go_scope.
Notation "m ;;; k" := (bind m (fun _ => k))
  (at level 100, right associativity) : go_scope.
Notation "'try' x <~ m ;; k" :=
  (bind m (fun r => match r with
                    | inl err => ret (Some err)
                    | inr x => k
                    end))
  (at level 100, x name, m at next level, right associativity) : go_scope.

(** [new(T)] initialised to [o]: the address of a fresh object. *)
Definition alloc {W} (o : object) : M W addr :=
  fun st =>
    (Returns (length (st_heap st)),
     {| st_heap := st_heap st ++ [o]; st_world := st_world st;
        st_calls := st_calls st |}).

(** Assignment to the variable at address [a]. *)
Definition store {W} (a : addr) (o : object) : M W unit :=
  fun st =>
    (Returns tt,
     {| st_heap := <[a := o]> (st_heap st); st_world := st_world st;
        st_calls := st_calls st |}).

(** Evaluating [p.f] or [&p.f] for [p : *Spec]: a nil [p] panics; the
    result is the struct [p] points to. *)
Definition deref {W} (p : option addr) : M W (addr * Spec.t) :=
  fun st =>
    match p with
    | None => (Panics nil_dereference, st)
    | Some a =>
        match load_spec (st_heap st) a with
        | Some s => (Returns (a, s), st)
        | None => (Panics ill_formed_heap, st)
        end
    end.

(** [range] over a slice with a body in [M]. *)
Fixpoint for_range {W A B} (l : list A) (body : A -> B -> M W B) (acc : B) : M W B :=
  match l with
  | [] => ret acc
  | x :: l' => bind (body x acc) (for_range l' body)
  end.

(** ** The service *)

Section Service.
Context {W R : Type}.

(** [azure.ResourceNotFound] is defined in package [cloud] of the repository,
    outside this file: it is a parameter here.  Section 6 of the
    specification asks for a detectable "resource not found" error. *)
Variable ResourceNotFound : error -> bool.

(** The text that [fmt] prints for an error under the verb [%#+v] (the
    Go-syntax representation of the value), a parameter here. *)
Variable GoSyntax : error -> string.

(** Modelled from the spec: [type Service struct], declared in another file
    of the package; this file uses its field [Client] only. *)
Record Service := { Client_ : Client W R }.

Variable s : Service.

Local Open Scope go_scope.
Import containerservice.

(** Calls on [s.Client], recorded in [st_calls]. *)
Definition call_Get (resourceGroup name : string) : M W (R * option error) :=
  fun st =>
    let '(r, w) := Client_Get (Client_ s) resourceGroup name (st_world st) in
    (Returns r,
     {| st_heap := st_heap st; st_world := w;
        st_calls := st_calls st ++ [CallGet resourceGroup name] |}).

Definition call_GetCredentials (group name : string)
    : M W (list Z * option error) :=
  fun st =>
    let '(r, w) := Client_GetCredentials (Client_ s) group name (st_world st) in
    (Returns r,
     {| st_heap := st_heap st; st_world := w;
        st_calls := st_calls st ++ [CallGetCredentials group name] |}).

Definition call_CreateOrUpdate (resourceGroup name : string)
    (properties : ManagedClusterPtr) : M W (option error) :=
  fun st =>
    match read.managedCluster (st_heap st) properties with
    | None => (Panics ill_formed_heap, st)
    | Some v =>
        let '(err, w) :=
          Client_CreateOrUpdate (Client_ s) resourceGroup name v (st_world st) in
        (Returns err,
         {| st_heap := st_heap st; st_world := w;
            st_calls := st_calls st ++ [CallCreateOrUpdate resourceGroup name v] |})
    end.

Definition call_Delete (resourceGroup name : string) : M W (option error) :=
  fun st =>
    let '(err, w) := Client_Delete (Client_ s) resourceGroup name (st_world st) in
    (Returns err,
     {| st_heap := st_heap st; st_world := w;
        st_calls := st_calls st ++ [CallDelete resourceGroup name] |}).

Definition expected_spec : error :=
  errorString "expected managed cluster specification".

(** [func (s * Service) Get(ctx, spec interface{}) (interface{}, error)]:
    fetches a managed cluster from Azure.  The first result is [None] for
    the nil interface. *)
Definition Get (spec : iface) : M W (option R * option error) :=
  match assert_PtrSpec spec with
  | None => ret (None, Some expected_spec)
  | Some managedClusterSpec =>
      x <~ deref managedClusterSpec ;;
      let sp := x.2 in
      res <~ call_Get (Spec.ResourceGroup sp) (Spec.Name sp) ;;
      ret (Some res.1, res.2)
  end.

(** [func (s * Service) GetCredentials(ctx, group, name string) ([]byte, error)] *)
Definition GetCredentials (group name : string) : M W (list Z * option error) :=
  call_GetCredentials group name.

(** [ip[15] = byte(10)]: an index out of range panics. *)
Definition set_index {A} (l : list A) (i : nat) (x : A) : M W (list A) :=
  if (i <? length l)%nat then ret (<[i := x]> l) else panic index_out_of_range.

(** The initial value of [properties] in [Reconcile], for the [Spec] at
    address [a]. *)
Definition initial_properties (a : addr) : ManagedClusterPtr :=
  {| Identity_Type := SystemAssigned;
     Location := Some (AddrSpecField a F_Location);
     Properties :=
       {| DNSPrefix := Some (AddrSpecField a F_Name);
          KubernetesVersion := Some (AddrSpecField a F_Version);
          LinuxProfile_ :=
            {| AdminUsername := Some AddrDefaultUser;
               SSH_PublicKeys := [Some (AddrSpecField a F_SSHPublicKey)] |};
          ServicePrincipalProfile_ClientID := Some AddrManagedIdentity;
          AgentPoolProfiles := [];
          NetworkProfile :=
            {| NetworkPlugin := Azure;
               NetworkPolicy := EmptyString;
               PodCidr := None;
               ServiceCidr := None;
               DNSServiceIP := None;
               LoadBalancerSku := Standard |} |} |}.

(** The statement [if managedClusterSpec.ServiceCIDR != ... { ... }] of
    [Reconcile], run when the field is not the empty string: the new
    [properties], or the error returned. *)
Definition Reconcile_ServiceCIDR (a : addr) (sp : Spec.t)
    (properties : ManagedClusterPtr) : M W (error + ManagedClusterPtr) :=
  if bool_decide (Spec.ServiceCIDR sp <> EmptyString) then
    let properties :=
      with_NetworkProfile
        (set_ServiceCidr (Some (AddrSpecField a F_ServiceCIDR))) properties in
    match net.ParseCIDR (Spec.ServiceCIDR sp) with
    | inr err =>
        ret (inl (wrapError ("failed to parse service cidr: " +:+ Error err) err))
    | inl (ip, _) =>
        (* HACK: set the last octet of the IP to .10 *)
        ip <~ set_index ip 15 10 ;;
        dnsIP <~ alloc (ObjString (net.String_ ip)) ;;
        ret (inr (with_NetworkProfile
                    (set_DNSServiceIP (Some (AddrString dnsIP))) properties))
    end
  else ret (inr properties).

(** The statement [if managedClusterSpec.NetworkPolicy != nil { ... }]. *)
Definition Reconcile_NetworkPolicy (sp : Spec.t) (properties : ManagedClusterPtr)
    : error + ManagedClusterPtr :=
  match Spec.NetworkPolicy sp with
  | Some policy =>
      if strings.EqualFold policy "Azure" then
        inr (with_NetworkProfile (set_NetworkPolicy NetworkPolicyAzure) properties)
      else if strings.EqualFold policy "Calico" then
        inr (with_NetworkProfile (set_NetworkPolicy NetworkPolicyCalico) properties)
      else
        inl (errorString
               ("invalid network policy: '" +:+ policy
                +:+ "'. Allowed options are 'calico' and 'azure'"))
  | None => inr properties
  end.

(** The statement [for _, pool := range managedClusterSpec.AgentPools { ... }].
    The repository is built with a Go toolchain older than 1.22, where a
    [for] statement with [:=] declares its iteration variables once and
    re-uses them in each iteration: [pool] is one variable, assigned the
    next element before each run of the body, and [&pool.Name],
    [&pool.OSDiskSizeGB] and [&pool.Replicas] are the same three pointers in
    every iteration.  [pool.SKU] is copied into the profile. *)
Definition Reconcile_AgentPools (sp : Spec.t) (properties : ManagedClusterPtr)
    : M W ManagedClusterPtr :=
  pool <~ alloc (ObjPoolSpec PoolSpec.zero) ;;
  for_range (Spec.AgentPools sp)
    (fun elem properties =>
       store pool (ObjPoolSpec elem) ;;;
       let profile :=
         {| Name := Some (AddrPoolName pool);
            VMSize := PoolSpec.SKU elem;
            OsDiskSizeGB := Some (AddrPoolOSDiskSizeGB pool);
            Count := Some (AddrPoolReplicas pool);
            Type_ := VirtualMachineScaleSets |} in
       ret (with_AgentPoolProfiles (fun ps => ps ++ [profile]) properties))
    properties.

(** [func (s * Service) Reconcile(ctx, spec interface{}) error]: idempotently
    creates or updates a managed cluster, if possible. *)
Definition Reconcile (spec : iface) : M W (option error) :=
  match assert_PtrSpec spec with
  | None => ret (Some expected_spec)
  | Some managedClusterSpec =>
      x <~ deref managedClusterSpec ;;
      let a := x.1 in
      let sp := x.2 in
      let properties := initial_properties a in
      let properties :=
        match Spec.NetworkPlugin sp with
        | Some v => with_NetworkProfile (set_NetworkPlugin v) properties
        | None => properties
        end in
      let properties :=
        if bool_decide (Spec.PodCIDR sp <> EmptyString) then
          with_NetworkProfile
            (set_PodCidr (Some (AddrSpecField a F_PodCIDR))) properties
        else properties in
      try properties <~ Reconcile_ServiceCIDR a sp properties ;;
      try properties <~ ret (Reconcile_NetworkPolicy sp properties) ;;
      let properties :=
        match Spec.LoadBalancerSKU sp with
        | Some v => with_NetworkProfile (set_LoadBalancerSku v) properties
        | None => properties
        end in
      properties <~ Reconcile_AgentPools sp properties ;;
      err <~ call_CreateOrUpdate (Spec.ResourceGroup sp) (Spec.Name sp) properties ;;
      match err with
      | Some err =>
          ret (Some (errorString
                       ("failed to create or update managed cluster, "
                        +:+ GoSyntax err)))
      | None => ret None
      end
  end.

(** [func (s * Service) Delete(ctx, spec interface{}) error].  The two
    [klog.V(2).Infof] lines are not modelled, except that the first one
    evaluates [managedClusterSpec.Name]. *)
Definition Delete (spec : iface) : M W (option error) :=
  match assert_PtrSpec spec with
  | None => ret (Some expected_spec)
  | Some managedClusterSpec =>
      x <~ deref managedClusterSpec ;;
      let sp := x.2 in
      err <~ call_Delete (Spec.ResourceGroup sp) (Spec.Name sp) ;;
      match err with
      | Some err =>
          if ResourceNotFound err then
            (* already deleted *)
            ret None
          else
            ret (Some (withMessage err
                         ("failed to delete managed cluster " +:+ Spec.Name sp
                          +:+ " in resource group " +:+ Spec.ResourceGroup sp)))
      | None => ret None
      end
  end.

End Service.

(** ** What [Reconcile] hands to the client, as functions of the [Spec]

    The definitions of this part are not translated from the source.  They
    say, for a [Spec], what the statements of [Reconcile] produce and what the
    client then reads; [Reconcile_run] proves that the code computes them, and
    the claims are stated on the code. *)

Module derived.
Import containerservice.

(** The result of the statement on [ServiceCIDR]: the error returned, or the
    text stored in [dnsIP] if the statement gets to it. *)
Definition dns_of (sp : Spec.t) : error + option string :=
  if bool_decide (Spec.ServiceCIDR sp <> EmptyString) then
    match net.ParseCIDR (Spec.ServiceCIDR sp) with
    | inr err => inl (wrapError ("failed to parse service cidr: " +:+ Error err) err)
    | inl (ip, _) => inr (Some (net.String_ (<[15%nat := 10]> ip)))
    end
  else inr None.

(** The result of the statement on [NetworkPolicy]: the error returned, or
    the value left in the field [NetworkPolicy] of the network profile. *)
Definition policy_of (sp : Spec.t) : error + string :=
  match Spec.NetworkPolicy sp with
  | Some policy =>
      if strings.EqualFold policy "Azure" then inr NetworkPolicyAzure
      else if strings.EqualFold policy "Calico" then inr NetworkPolicyCalico
      else inl (errorString
                  ("invalid network policy: '" +:+ policy
                   +:+ "'. Allowed options are 'calico' and 'azure'"))
  | None => inr EmptyString
  end.

(** The profile that the body of the loop appends for the element [elem],
    [pool] being the address of the range variable. *)
Definition pool_profile (pool : addr) (elem : PoolSpec.t)
    : ManagedClusterAgentPoolProfile strptr i32ptr :=
  {| Name := Some (AddrPoolName pool);
     VMSize := PoolSpec.SKU elem;
     OsDiskSizeGB := Some (AddrPoolOSDiskSizeGB pool);
     Count := Some (AddrPoolReplicas pool);
     Type_ := VirtualMachineScaleSets |}.

(** The profiles of the agent pools as the client reads them once the loop
    is over: the three pointers of every profile lead to the variable
    [pool], which then holds the last element of the slice. *)
Definition profiles_of (pools : list PoolSpec.t)
    : list (ManagedClusterAgentPoolProfile string Z) :=
  let pool := List.last pools PoolSpec.zero in
  map (fun elem =>
         {| Name := Some (PoolSpec.Name pool);
            VMSize := PoolSpec.SKU elem;
            OsDiskSizeGB := Some (PoolSpec.OSDiskSizeGB pool);
            Count := Some (PoolSpec.Replicas pool);
            Type_ := VirtualMachineScaleSets |})
      pools.

(** The resource as the client reads it when [Reconcile] calls
    [CreateOrUpdate], from the [Spec] and the results of the two
    statements that can fail. *)
Definition resource_of (sp : Spec.t) (dns : option string) (policy : string)
    : ManagedClusterVal :=
  {| Identity_Type := SystemAssigned;
     Location := Some (Spec.Location sp);
     Properties :=
       {| DNSPrefix := Some (Spec.Name sp);
          KubernetesVersion := Some (Spec.Version sp);
          LinuxProfile_ :=
            {| AdminUsername := Some defaultUser;
               SSH_PublicKeys := [Some (Spec.SSHPublicKey sp)] |};
          ServicePrincipalProfile_ClientID := Some managedIdentity;
          AgentPoolProfiles := profiles_of (Spec.AgentPools sp);
          NetworkProfile :=
            {| NetworkPlugin := default Azure (Spec.NetworkPlugin sp);
               NetworkPolicy := policy;
               PodCidr :=
                 if bool_decide (Spec.PodCIDR sp <> EmptyString)
                 then Some (Spec.PodCIDR sp) else None;
               ServiceCidr :=
                 if bool_decide (Spec.ServiceCIDR sp <> EmptyString)
                 then Some (Spec.ServiceCIDR sp) else None;
               DNSServiceIP := dns;
               LoadBalancerSku := default Standard (Spec.LoadBalancerSKU sp) |} |} |}.

(** The objects [Reconcile] has allocated when it reaches the loop. *)
Definition dns_cell (dns : option string) : list object :=
  match dns with
  | Some d => [ObjString d]
  | None => []
  end.

(** The state [st] with the objects [ext] allocated. *)
Definition grow {W} (st : state W) (ext : list object) : state W :=
  {| st_heap := st_heap st ++ ext; st_world := st_world st;
     st_calls := st_calls st |}.

(** The error [Reconcile] makes of an error of [CreateOrUpdate]. *)
Definition Reconcile_error (GoSyntax : error -> string) (err : error) : error :=
  errorString ("failed to create or update managed cluster, " +:+ GoSyntax err).

(** The error [Delete] makes of an error of the client's delete. *)
Definition Delete_error (sp : Spec.t) (err : error) : error :=
  withMessage err
    ("failed to delete managed cluster " +:+ Spec.Name sp
     +:+ " in resource group " +:+ Spec.ResourceGroup sp).

End derived.
Import derived.

(** ** The vocabulary of the claims *)

(** The derived resource of a run of [Reconcile] from state [st]: the
    resource the client is called with. *)
Definition derived_resource {W R} (GoSyntax : error -> string) (s : @Service W R)
    (st : state W) (spec : iface) (v : ManagedClusterVal) : Prop :=
  exists resourceGroup name,
    st_calls (Reconcile GoSyntax s spec st).2
    = st_calls st ++ [CallCreateOrUpdate resourceGroup name v].

(** The reading of the specification for the DNS address: "the parsed
    network's first address" with "the low-order byte" overwritten by 10.
    It is compared below with what [Reconcile] stores in [dnsIP]. *)
Definition spec_network_dns (n : net.IPNet) : string :=
  net.String_ (<[(length (net.IPNet_IP n) - 1)%nat := 10]> (net.IPNet_IP n)).

(** A text names [s] when [s] occurs in it. *)
Definition names (e : error) (s : string) : bool := GoString.contains (Error e) s.

(** The bytes of [s] with the ASCII capital letters replaced by their small
    letters; every other byte is kept. *)
Definition lower_bytes (s : string) : list Z :=
  map (fun c =>
         let b := GoString.byte_of c in
         if (GoString.byte_of "A"%char <=? b) && (b <=? GoString.byte_of "Z"%char)
         then b + 32 else b)
      (list_ascii_of_string s).

(** The [Spec] [sp] with other tags. *)
Definition with_Tags (tags : gmap string string) (sp : Spec.t) : Spec.t :=
  {| Spec.Name := Spec.Name sp;
     Spec.ResourceGroup := Spec.ResourceGroup sp;
     Spec.Location := Spec.Location sp;
     Spec.Tags := tags;
     Spec.Version := Spec.Version sp;
     Spec.LoadBalancerSKU := Spec.LoadBalancerSKU sp;
     Spec.NetworkPlugin := Spec.NetworkPlugin sp;
     Spec.NetworkPolicy := Spec.NetworkPolicy sp;
     Spec.SSHPublicKey := Spec.SSHPublicKey sp;
     Spec.AgentPools := Spec.AgentPools sp;
     Spec.PodCIDR := Spec.PodCIDR sp;
     Spec.ServiceCIDR := Spec.ServiceCIDR sp |}.

(** The two checks of [Reconcile] on a [Spec]. *)
Definition cidr_ok (sp : Spec.t) : Prop :=
  Spec.ServiceCIDR sp = EmptyString
  \/ exists ip n, net.ParseCIDR (Spec.ServiceCIDR sp) = inl (ip, n).

Definition policy_ok (sp : Spec.t) : Prop :=
  match Spec.NetworkPolicy sp with
  | Some p => strings.EqualFold p "Azure" = true \/ strings.EqualFold p "Calico" = true
  | None => True
  end.

(** ** Test doubles for the provider client *)

Module double.

(** The repository's [azure.ResourceNotFound] holds for an
    [autorest.DetailedError] whose status code is 404. *)
Definition is404 (e : error) : bool :=
  match e with
  | DetailedError _ code => code =? 404
  | _ => false
  end.

(** The double quote, as a text. *)
Definition quote : string := String "034"%char EmptyString.

(** The text [fmt] prints under the verb [%#+v] for an error made by
    [errors.New] of the standard library, a pointer to an [errors.errorString]:
    the Go syntax of the value, with its text between double quotes (a text
    without characters to escape is printed as it is).  The clients of the
    examples fail with such errors only; for any other error the double
    gives the [Error()] text, which stands for a rendering that is not
    modelled. *)
Definition goSyntax (e : error) : string :=
  match e with
  | errorString s => "&errors.errorString{s:" +:+ quote +:+ s +:+ quote +:+ "}"
  | _ => Error e
  end.

Definition not_found : error := DetailedError "managed cluster not found" 404.

(** An in-memory provider: the clusters that exist, by resource group and
    name. *)
Definition cloud := gmap (string * string) ManagedClusterVal.

Definition memory : Client cloud (option ManagedClusterVal) :=
  {| Client_Get rg name w :=
       match w !! (rg, name) with
       | Some r => ((Some r, None), w)
       | None => ((None, Some not_found), w)
       end;
     Client_GetCredentials rg name w :=
       match w !! (rg, name) with
       | Some r => ((map GoString.byte_of (list_ascii_of_string name), None), w)
       | None => (([], Some not_found), w)
       end;
     Client_CreateOrUpdate rg name r w := (None, <[(rg, name) := r]> w);
     Client_Delete rg name w :=
       match w !! (rg, name) with
       | Some _ => (None, delete (rg, name) w)
       | None => (Some not_found, w)
       end |}.

(** A provider that fails every call with [err]. *)
Definition failing (err : error) : Client unit unit :=
  {| Client_Get _ _ w := ((tt, Some err), w);
     Client_GetCredentials _ _ w := (([], Some err), w);
     Client_CreateOrUpdate _ _ _ w := (Some err, w);
     Client_Delete _ _ w := (Some err, w) |}.

Definition pool_a : PoolSpec.t :=
  {| PoolSpec.Name := "pool-a"; PoolSpec.SKU := "Standard_D2s_v3";
     PoolSpec.Replicas := 3; PoolSpec.OSDiskSizeGB := 128 |}.
Definition pool_b : PoolSpec.t :=
  {| PoolSpec.Name := "pool-b"; PoolSpec.SKU := "Standard_D4s_v3";
     PoolSpec.Replicas := 5; PoolSpec.OSDiskSizeGB := 256 |}.

(** A [Spec] with two agent pools, for a service CIDR and a network
    policy. *)
Definition spec_with (cidr : string) (policy : option string) : Spec.t :=
  {| Spec.Name := "c1"; Spec.ResourceGroup := "rg1"; Spec.Location := "westus2";
     Spec.Tags := {[ "env" := "test" ]}; Spec.Version := "v1.17.4";
     Spec.LoadBalancerSKU := None; Spec.NetworkPlugin := None;
     Spec.NetworkPolicy := policy; Spec.SSHPublicKey := "ssh-rsa AAAA";
     Spec.AgentPools := [pool_a; pool_b]; Spec.PodCIDR := EmptyString;
     Spec.ServiceCIDR := cidr |}.

Definition spec0 : Spec.t := spec_with "10.96.0.0/12" None.

(** The state in which the caller has built [sp], at address 0, and nothing
    has been called. *)
Definition start {W} (sp : Spec.t) (w : W) : state W :=
  {| st_heap := [ObjSpec sp]; st_world := w; st_calls := [] |}.

Definition in_memory : @Service cloud (option ManagedClusterVal) :=
  {| Client_ := memory |}.

Definition broken (err : error) : @Service unit unit :=
  {| Client_ := failing err |}.

(** The error that [errors.New] of the standard library makes of the text
    boom. *)
Definition boom : error := errorString "boom".

(** A [Spec] with no name, no SSH key, a load-balancer SKU and a network
    plugin that the provider does not know, a pod CIDR that is no CIDR, and
    one agent pool. *)
Definition spec_bare : Spec.t :=
  {| Spec.Name := EmptyString; Spec.ResourceGroup := "rg1";
     Spec.Location := EmptyString; Spec.Tags := ∅; Spec.Version := EmptyString;
     Spec.LoadBalancerSKU := Some "gold"; Spec.NetworkPlugin := Some "none";
     Spec.NetworkPolicy := Some "CaLiCo"; Spec.SSHPublicKey := EmptyString;
     Spec.AgentPools := [pool_a]; Spec.PodCIDR := "no cidr";
     Spec.ServiceCIDR := EmptyString |}.

(** What the client reads for [spec0]. *)
Definition resource0 : ManagedClusterVal :=
  resource_of spec0 (Some "10.96.0.10") EmptyString.

End double.

(** * Properties *)

(** ** [net.ParseCIDR] returns a 16-byte address *)

Module net_facts.
Import net GoString.

Lemma parseIPv4_loop_length k i s p ip :
  parseIPv4_loop k i s p = Some ip -> length ip = IPv6len.
Proof.
  revert i s p. induction k as [|k IH]; intros i s p; simpl.
  - destruct (len s =? 0)%nat; [|discriminate]. by intros [= <-].
  - destruct (len s =? 0)%nat; [discriminate|].
    destruct (if (0 <? i)%nat then _ else _) as [s1|]; [|discriminate].
    destruct (dtoi s1) as [[n c] ok].
    destruct (negb ok || (255 <? n)); [discriminate|]. apply IH.
Qed.

Lemma parseIPv4_length s ip : parseIPv4 s = Some ip -> length ip = IPv6len.
Proof. apply parseIPv4_loop_length. Qed.

Lemma parseIPv6_loop_length fuel ip e i s st :
  parseIPv6_loop fuel ip e i s = Some st -> length (v6_ip st) = length ip.
Proof.
  revert ip e i s st. induction fuel as [|fuel IH]; intros ip e i s st; simpl.
  - by intros [= <-].
  - intros H.
    repeat (case_match; try discriminate); simplify_eq/=;
      rewrite ?length_insert; try done;
      match goal with
      | H : parseIPv6_loop _ _ _ _ _ = Some _ |- _ =>
          apply IH in H; by rewrite H, !length_insert
      end.
Qed.

Lemma down_from_length hi lo body ip :
  (forall j p, length (body j p) = length p) ->
  length (down_from hi lo body ip) = length ip.
Proof.
  intros Hb. unfold down_from. generalize (rev (seq lo (hi - lo))) as js.
  intros js. revert ip. induction js as [|j js IH]; intros ip; simpl; [done|].
  by rewrite IH, Hb.
Qed.

Lemma parseIPv6_length s ip : parseIPv6 s = Some ip -> length ip = IPv6len.
Proof.
  unfold parseIPv6. intros H.
  repeat (case_match; try discriminate); simplify_eq;
    rewrite ?down_from_length; try reflexivity;
    try (intros; by rewrite length_insert);
    match goal with
    | H : parseIPv6_loop _ _ _ _ _ = Some _ |- _ =>
        apply parseIPv6_loop_length in H; by rewrite H
    end.
Qed.

Lemma ParseCIDR_length s ip n :
  ParseCIDR s = inl (ip, n) -> length ip = IPv6len.
Proof.
  unfold ParseCIDR. destruct (cut _ s) as [[addr mask]|]; [|discriminate].
  pose (addr_of (r : list Z * IPNet + error) :=
          match r with inl p => p.1 | inr _ => [] end).
  destruct (parseIPv4 addr) as [ip4|] eqn:H4.
  - destruct (dtoi mask) as [[m i] ok].
    destruct (_ || _); [discriminate|].
    intros H. apply (f_equal addr_of) in H. cbn [addr_of fst] in H. subst ip.
    by apply parseIPv4_length in H4.
  - destruct (dtoi mask) as [[m i] ok].
    destruct (parseIPv6 addr) as [ip6|] eqn:H6; [|discriminate].
    destruct (_ || _); [discriminate|].
    intros H. apply (f_equal addr_of) in H. cbn [addr_of fst] in H. subst ip.
    by apply parseIPv6_length in H6.
Qed.

(** The example of the documentation of [ParseCIDR]: the address
    192.0.2.1 and the network 192.0.2.0/24. *)
Example ParseCIDR_doc :
  ParseCIDR "192.0.2.1/24"
  = inl (IPv4 192 0 2 1,
         {| IPNet_IP := [192; 0; 2; 0]; IPNet_Mask := [255; 255; 255; 0] |}).
Proof. reflexivity. Qed.

Example ParseCIDR_v6 :
  ParseCIDR "2001:db8::1/32"
  = inl ([0x20; 0x01; 0x0d; 0xb8; 0; 0; 0; 0; 0; 0; 0; 0; 0; 0; 0; 1],
         {| IPNet_IP := [0x20; 0x01; 0x0d; 0xb8; 0; 0; 0; 0; 0; 0; 0; 0; 0; 0; 0; 0];
            IPNet_Mask := [255; 255; 255; 255; 0; 0; 0; 0; 0; 0; 0; 0; 0; 0; 0; 0] |}).
Proof. reflexivity. Qed.

Example ParseCIDR_rejects :
  ParseCIDR "10.96.0.0" = inr (ParseError "CIDR address" "10.96.0.0")
  /\ ParseCIDR "10.96.0.0/33" = inr (ParseError "CIDR address" "10.96.0.0/33")
  /\ ParseCIDR "10.96.0/12" = inr (ParseError "CIDR address" "10.96.0/12")
  /\ ParseCIDR "1::2::3/64" = inr (ParseError "CIDR address" "1::2::3/64")
  /\ ParseCIDR EmptyString = inr (ParseError "CIDR address" EmptyString).
Proof. by split_and!. Qed.

Example String_v4 : String_ (IPv4 10 96 0 10) = "10.96.0.10".
Proof. reflexivity. Qed.

Example String_v6 :
  String_ [0x20; 0x01; 0x0d; 0xb8; 0; 0; 0; 0; 0; 0; 0; 0; 0; 0; 0; 10]
  = "2001:db8::a"
  /\ String_ [0xfd; 0; 0; 0; 0; 1; 0; 0; 0; 0; 0; 0; 0; 2; 0; 10]
     = "fd00:0:1::2:a"
  /\ String_ (replicate 16 0) = "::".
Proof. by split_and!. Qed.

Lemma prefix_app s t : String.prefix s (s +:+ t) = true.
Proof.
  induction s as [|c s IH]; simpl; [by destruct t|].
  destruct (ascii_dec c c); [done|congruence].
Qed.

Lemma contains_prefix s sub : String.prefix sub s = true -> contains s sub = true.
Proof. intros H. destruct s; cbn [contains]; by rewrite H. Qed.

(** A text contains each of the pieces it is appended from. *)
Lemma contains_app s t u : contains (s +:+ t +:+ u) t = true.
Proof.
  induction s as [|c s IH].
  - change (contains (t +:+ u) t = true). apply contains_prefix, prefix_app.
  - change (String.prefix t (String c (s +:+ t +:+ u))
            || contains (s +:+ t +:+ u) t = true).
    rewrite IH. apply orb_true_r.
Qed.

End net_facts.

(** ** The heap only grows *)

Lemma load_spec_app (h ext : list object) a sp :
  load_spec h a = Some sp -> load_spec (h ++ ext) a = Some sp.
Proof.
  unfold load_spec. destruct (h !! a) as [o|] eqn:E; [|discriminate].
  intros H. by rewrite (lookup_app_l_Some _ _ _ _ E).
Qed.

Lemma load_pool_end (h : list object) p :
  load_pool (h ++ [ObjPoolSpec p]) (length h) = Some p.
Proof. unfold load_pool. by rewrite list_lookup_middle. Qed.

Lemma load_string_mid (h ext : list object) d :
  load_str (h ++ ObjString d :: ext) (AddrString (length h)) = Some d.
Proof. simpl. by rewrite list_lookup_middle. Qed.

Lemma store_end (h : list object) o o' :
  <[length h := o']> (h ++ [o]) = h ++ [o'].
Proof.
  rewrite insert_app_r_alt by lia. by rewrite Nat.sub_diag.
Qed.

Lemma last_cons_default {A} (l : list A) a d :
  List.last (a :: l) d = List.last l a.
Proof.
  revert a d. induction l as [|b l IH]; intros a d; [done|].
  change (List.last (b :: l) d = List.last (b :: l) a). by rewrite !IH.
Qed.

(** ** What [Reconcile] computes *)

Section Reconcile_facts.
Context {W R : Type}.
Variable GoSyntax : error -> string.
Variable s : @Service W R.

Import containerservice.
Local Open Scope go_scope.

Lemma grow_nil (st : state W) : grow st [] = st.
Proof. destruct st. unfold grow; simpl. by rewrite app_nil_r. Qed.

Lemma deref_run (st : state W) a sp :
  load_spec (st_heap st) a = Some sp ->
  deref (Some a) st = (Returns (a, sp), st).
Proof. unfold deref. by intros ->. Qed.

(** The statement on [ServiceCIDR], run on any [properties]. *)
Lemma Reconcile_ServiceCIDR_run a sp properties (st : state W) :
  Reconcile_ServiceCIDR a sp properties st =
    match dns_of sp with
    | inl err => (Returns (inl err), st)
    | inr None => (Returns (inr properties), st)
    | inr (Some d) =>
        (Returns
           (inr (with_NetworkProfile
                   (set_DNSServiceIP (Some (AddrString (length (st_heap st)))))
                   (with_NetworkProfile
                      (set_ServiceCidr (Some (AddrSpecField a F_ServiceCIDR)))
                      properties))),
         grow st [ObjString d])
    end.
Proof.
  unfold Reconcile_ServiceCIDR, dns_of.
  destruct (bool_decide _); [|done].
  destruct (net.ParseCIDR _) as [[ip n]|err] eqn:E; [|done].
  apply net_facts.ParseCIDR_length in E.
  unfold bind, set_index. rewrite E. simpl. done.
Qed.

(** The loop on the agent pools, from a state whose last object is the
    variable [pool]. *)
Lemma for_range_pools (pools : list PoolSpec.t) :
  forall (h : list object) (w : W) (cs : list call) (x : PoolSpec.t)
         (properties : ManagedClusterPtr),
    for_range pools
      (fun elem properties =>
         store (length h) (ObjPoolSpec elem) ;;;
         ret (with_AgentPoolProfiles
                (fun ps => ps ++ [pool_profile (length h) elem]) properties))
      properties
      {| st_heap := h ++ [ObjPoolSpec x]; st_world := w; st_calls := cs |}
    = (Returns (with_AgentPoolProfiles
                  (fun ps => ps ++ map (pool_profile (length h)) pools)
                  properties),
       {| st_heap := h ++ [ObjPoolSpec (List.last pools x)];
          st_world := w; st_calls := cs |}).
Proof.
  induction pools as [|elem pools IH]; intros h w cs x properties.
  - simpl. unfold ret. f_equal. destruct properties as [i l p]; destruct p.
    unfold with_AgentPoolProfiles; simpl. by rewrite app_nil_r.
  - cbn [for_range]. unfold bind at 1. unfold bind at 1. unfold store, ret.
    cbn [st_heap st_world st_calls]. rewrite store_end.
    etrans; [apply IH|].
    f_equal.
    + unfold with_AgentPoolProfiles; simpl. by rewrite <- app_assoc.
    + by rewrite last_cons_default.
Qed.

Lemma Reconcile_AgentPools_run sp properties (st : state W) :
  Reconcile_AgentPools sp properties st =
    (Returns (with_AgentPoolProfiles
                (fun ps => ps ++ map (pool_profile (length (st_heap st)))
                                     (Spec.AgentPools sp))
                properties),
     grow st [ObjPoolSpec (List.last (Spec.AgentPools sp) PoolSpec.zero)]).
Proof.
  unfold Reconcile_AgentPools, bind, alloc.
  apply (for_range_pools (Spec.AgentPools sp) (st_heap st)).
Qed.

Lemma dns_of_cidr sp dns :
  dns_of sp = inr dns ->
  bool_decide (Spec.ServiceCIDR sp <> EmptyString) = bool_decide (is_Some dns).
Proof.
  unfold dns_of. destruct (bool_decide (Spec.ServiceCIDR sp <> _)).
  - destruct (net.ParseCIDR _) as [[ip n]|]; [|discriminate].
    intros [= <-]. symmetry. by apply bool_decide_eq_true.
  - intros [= <-]. symmetry. apply bool_decide_eq_false. by intros [? ?].
Qed.

Lemma Reconcile_NetworkPolicy_run sp (properties : ManagedClusterPtr) :
  Reconcile_NetworkPolicy sp properties =
    match policy_of sp with
    | inl err => inl err
    | inr policy =>
        inr (match Spec.NetworkPolicy sp with
             | Some _ => with_NetworkProfile (set_NetworkPolicy policy) properties
             | None => properties
             end)
    end.
Proof.
  unfold Reconcile_NetworkPolicy, policy_of.
  destruct (Spec.NetworkPolicy sp) as [policy|]; [|done].
  by repeat case_match.
Qed.

Lemma read_str_spec (h : list object) a sp f :
  load_spec h a = Some sp ->
  read.str h (Some (AddrSpecField a f)) = Some (Some (spec_get f sp)).
Proof. intros H. unfold read.str, load_str. by rewrite H. Qed.

Lemma read_pools (h : list object) pv x (pools : list PoolSpec.t) :
  load_pool h pv = Some x ->
  mapM (read.pool h) (map (pool_profile pv) pools)
  = Some (map (fun elem =>
                 {| Name := Some (PoolSpec.Name x);
                    VMSize := PoolSpec.SKU elem;
                    OsDiskSizeGB := Some (PoolSpec.OSDiskSizeGB x);
                    Count := Some (PoolSpec.Replicas x);
                    Type_ := VirtualMachineScaleSets |})
              pools).
Proof.
  intros H. induction pools as [|elem pools IH]; [done|].
  cbn [map mapM]. rewrite IH.
  unfold read.pool, pool_profile; simpl. by rewrite H.
Qed.

(** The run of [Reconcile] on a pointer to a [Spec]. *)
Lemma Reconcile_run (st : state W) a sp :
  load_spec (st_heap st) a = Some sp ->
  Reconcile GoSyntax s (PtrSpec (Some a)) st =
    match dns_of sp with
    | inl err => (Returns (Some err), st)
    | inr dns =>
        match policy_of sp with
        | inl err => (Returns (Some err), grow st (dns_cell dns))
        | inr policy =>
            let v := resource_of sp dns policy in
            let res :=
              Client_CreateOrUpdate (Client_ s) (Spec.ResourceGroup sp)
                (Spec.Name sp) v (st_world st) in
            (Returns (Reconcile_error GoSyntax <$> res.1),
             {| st_heap :=
                  st_heap st ++ dns_cell dns
                  ++ [ObjPoolSpec (List.last (Spec.AgentPools sp) PoolSpec.zero)];
                st_world := res.2;
                st_calls :=
                  st_calls st
                  ++ [CallCreateOrUpdate (Spec.ResourceGroup sp) (Spec.Name sp) v] |})
        end
    end.
Proof.
  intros Hsp. unfold Reconcile. cbn [assert_PtrSpec].
  unfold bind at 1. rewrite (deref_run _ _ _ Hsp). cbn [fst snd].
  unfold bind at 1. rewrite Reconcile_ServiceCIDR_run.
  destruct (dns_of sp) as [err|dns] eqn:Hdns; [done|].
  pose proof (dns_of_cidr _ _ Hdns) as Hcidr.
  set (x := List.last (Spec.AgentPools sp) PoolSpec.zero).
  assert (Hrun : forall properties,
    (properties <~ Reconcile_AgentPools sp properties ;;
     err <~ call_CreateOrUpdate s (Spec.ResourceGroup sp) (Spec.Name sp)
              properties ;;
     match err with
     | Some err => ret (Some (Reconcile_error GoSyntax err))
     | None => ret None
     end) (grow st (dns_cell dns))
    = match read.managedCluster (st_heap st ++ dns_cell dns ++ [ObjPoolSpec x])
              (with_AgentPoolProfiles
                 (fun ps => ps ++ map (pool_profile
                                         (length (st_heap st ++ dns_cell dns)))
                                      (Spec.AgentPools sp))
                 properties) with
      | None =>
          (Panics ill_formed_heap,
           grow st (dns_cell dns ++ [ObjPoolSpec x]))
      | Some v =>
          let res :=
            Client_CreateOrUpdate (Client_ s) (Spec.ResourceGroup sp)
              (Spec.Name sp) v (st_world st) in
          (Returns (Reconcile_error GoSyntax <$> res.1),
           {| st_heap := st_heap st ++ dns_cell dns ++ [ObjPoolSpec x];
              st_world := res.2;
              st_calls :=
                st_calls st
                ++ [CallCreateOrUpdate (Spec.ResourceGroup sp) (Spec.Name sp) v] |})
      end).
  { intros properties. unfold bind at 1. rewrite Reconcile_AgentPools_run.
    unfold bind at 1. unfold call_CreateOrUpdate.
    cbn [grow st_heap st_world st_calls]. rewrite <- app_assoc.
    destruct (read.managedCluster _ _) as [v|].
    + by destruct (Client_CreateOrUpdate _ _ _ _ _) as [[err|] w].
    + unfold grow; cbn [st_heap st_world st_calls]. by rewrite <- app_assoc. }
  assert (Hsp2 : load_spec (st_heap st ++ dns_cell dns ++ [ObjPoolSpec x]) a
                 = Some sp) by by apply load_spec_app.
  assert (Hpool : load_pool (st_heap st ++ dns_cell dns ++ [ObjPoolSpec x])
                    (length (st_heap st ++ dns_cell dns)) = Some x).
  { rewrite app_assoc. apply load_pool_end. }
  assert (Hd : forall d, dns = Some d ->
               (st_heap st ++ dns_cell dns ++ [ObjPoolSpec x])
               !! length (st_heap st) = Some (ObjString d)).
  { intros d ->. cbn [dns_cell app]. by rewrite list_lookup_middle. }
  assert (Htail : forall properties : ManagedClusterPtr,
    properties =
      (let p0 := initial_properties a in
       let p1 := match Spec.NetworkPlugin sp with
                 | Some v => with_NetworkProfile (set_NetworkPlugin v) p0
                 | None => p0
                 end in
       let p2 := if bool_decide (Spec.PodCIDR sp <> EmptyString)
                 then with_NetworkProfile
                        (set_PodCidr (Some (AddrSpecField a F_PodCIDR))) p1
                 else p1 in
       match dns with
       | Some _ =>
           with_NetworkProfile
             (set_DNSServiceIP (Some (AddrString (length (st_heap st)))))
             (with_NetworkProfile
                (set_ServiceCidr (Some (AddrSpecField a F_ServiceCIDR))) p2)
       | None => p2
       end) ->
    (try properties <~ ret (Reconcile_NetworkPolicy sp properties) ;;
     let properties :=
       match Spec.LoadBalancerSKU sp with
       | Some v => with_NetworkProfile (set_LoadBalancerSku v) properties
       | None => properties
       end in
     properties <~ Reconcile_AgentPools sp properties ;;
     err <~ call_CreateOrUpdate s (Spec.ResourceGroup sp) (Spec.Name sp)
              properties ;;
     match err with
     | Some err => ret (Some (Reconcile_error GoSyntax err))
     | None => ret None
     end) (grow st (dns_cell dns))
    = match policy_of sp with
      | inl err => (Returns (Some err), grow st (dns_cell dns))
      | inr policy =>
          let v := resource_of sp dns policy in
          let res :=
            Client_CreateOrUpdate (Client_ s) (Spec.ResourceGroup sp)
              (Spec.Name sp) v (st_world st) in
          (Returns (Reconcile_error GoSyntax <$> res.1),
           {| st_heap := st_heap st ++ dns_cell dns ++ [ObjPoolSpec x];
              st_world := res.2;
              st_calls :=
                st_calls st
                ++ [CallCreateOrUpdate (Spec.ResourceGroup sp) (Spec.Name sp) v] |})
      end).
  { intros properties ->. cbn zeta.
    unfold bind at 1. unfold ret at 1. rewrite Reconcile_NetworkPolicy_run.
    destruct (policy_of sp) as [err|policy] eqn:Hpol; [done|].
    rewrite Hrun.
    match goal with
    | |- context [read.managedCluster ?h ?P] =>
        assert (read.managedCluster h P = Some (resource_of sp dns policy))
          as ->; [|done]
    end.
    unfold resource_of, profiles_of. rewrite Hcidr. fold x.
    unfold policy_of in Hpol.
    destruct dns as [d|];
      [specialize (Hd d eq_refl)|clear Hd];
      destruct (Spec.NetworkPlugin sp), (Spec.LoadBalancerSKU sp),
        (Spec.NetworkPolicy sp), (bool_decide (Spec.PodCIDR sp <> EmptyString));
      simplify_eq;
      unfold read.managedCluster, read.network, read.linux;
      simpl; simpl in Hsp2, Hpool; try simpl in Hd;
      repeat (first [rewrite Hsp2 | rewrite Hd
                    | rewrite (read_pools _ _ _ _ Hpool)]; simpl);
      reflexivity. }
  destruct dns as [d|]; cbn iota beta.
  - exact (Htail _ eq_refl).
  - rewrite <- (grow_nil st) at 1. exact (Htail _ eq_refl).
Qed.

End Reconcile_facts.

(** ** The claims of the specification *)

Lemma append_assoc (s t u : string) : (s +:+ t) +:+ u = s +:+ t +:+ u.
Proof.
  induction s as [|c s IH]; [done|].
  change (String c ((s +:+ t) +:+ u) = String c (s +:+ t +:+ u)). by f_equal.
Qed.

Lemma prefix_refl (x : string) : String.prefix x x = true.
Proof.
  induction x as [|c x IH]; [done|]. simpl.
  destruct (ascii_dec c c); [done|congruence].
Qed.

Lemma prefix_append (x s t : string) :
  String.prefix x s = true -> String.prefix x (s +:+ t) = true.
Proof.
  revert s. induction x as [|c x IH]; intros s.
  - intros _. by destruct (s +:+ t).
  - destruct s as [|c' s]; simpl; [done|].
    destruct (ascii_dec c c'); [apply IH|done].
Qed.

Lemma contains_refl (x : string) : GoString.contains x x = true.
Proof. apply net_facts.contains_prefix, prefix_refl. Qed.

Lemma contains_append_l (s t x : string) :
  GoString.contains s x = true -> GoString.contains (s +:+ t) x = true.
Proof.
  induction s as [|c s IH].
  - cbn [GoString.contains]. rewrite orb_false_r. intros H.
    apply net_facts.contains_prefix. by apply (prefix_append x EmptyString t).
  - change (String.prefix x (String c s) || GoString.contains s x = true ->
            String.prefix x (String c s +:+ t) || GoString.contains (s +:+ t) x
            = true).
    intros [H|H]%orb_true_iff.
    + by rewrite (prefix_append _ _ t H).
    + rewrite (IH H). apply orb_true_r.
Qed.

Lemma contains_append_r (s t x : string) :
  GoString.contains t x = true -> GoString.contains (s +:+ t) x = true.
Proof.
  intros H. induction s as [|c s IH]; [done|].
  change (String.prefix x (String c (s +:+ t)) || GoString.contains (s +:+ t) x
          = true).
  rewrite IH. apply orb_true_r.
Qed.

Lemma contains_mid (a b c d : string) :
  GoString.contains (a +:+ (b +:+ c +:+ d)) c = true.
Proof. rewrite <- append_assoc. apply net_facts.contains_app. Qed.

Lemma dns_of_ok sp : (exists dns, dns_of sp = inr dns) <-> cidr_ok sp.
Proof.
  unfold dns_of, cidr_ok.
  destruct (decide (Spec.ServiceCIDR sp = EmptyString)) as [E|E].
  - rewrite bool_decide_false by (by intros H; apply H). split; [by left|by eexists].
  - rewrite bool_decide_true by done.
    destruct (net.ParseCIDR (Spec.ServiceCIDR sp)) as [[ip n]|err].
    + split; [intros _; right; by eexists _, _|by eexists].
    + split; [by intros [? ?]|]. intros [?|(ip & n & ?)]; done.
Qed.

Lemma policy_of_ok sp : (exists policy, policy_of sp = inr policy) <-> policy_ok sp.
Proof.
  unfold policy_of, policy_ok. destruct (Spec.NetworkPolicy sp) as [p|].
  - destruct (strings.EqualFold p "Azure"); [split; [by left|by eexists]|].
    destruct (strings.EqualFold p "Calico"); [split; [by right|by eexists]|].
    split; [by intros [? ?]|by intros [?|?]].
  - split; [done|by eexists].
Qed.

Section Claims.
Context {W R : Type}.
Variable ResourceNotFound : error -> bool.
Variable GoSyntax : error -> string.
Variable s : @Service W R.

Import containerservice.

Lemma derived_resource_inv st a sp v :
  load_spec (st_heap st) a = Some sp ->
  derived_resource GoSyntax s st (PtrSpec (Some a)) v ->
  exists dns policy,
    dns_of sp = inr dns /\ policy_of sp = inr policy
    /\ v = resource_of sp dns policy.
Proof.
  intros Hsp (rg & name & Hc). rewrite (Reconcile_run _ _ _ _ _ Hsp) in Hc.
  assert (Hno : st_calls st <> st_calls st ++ [CallCreateOrUpdate rg name v]).
  { intros E. apply (f_equal length) in E. rewrite length_app in E.
    simpl in E. lia. }
  destruct (dns_of sp) as [err|dns]; [done|].
  destruct (policy_of sp) as [err|policy]; [done|].
  exists dns, policy. split_and!; [done..|].
  cbn [snd st_calls] in Hc. apply app_inv_head in Hc. by injection Hc.
Qed.

Lemma derived_resource_intro st a sp dns policy :
  load_spec (st_heap st) a = Some sp ->
  dns_of sp = inr dns -> policy_of sp = inr policy ->
  derived_resource GoSyntax s st (PtrSpec (Some a)) (resource_of sp dns policy).
Proof.
  intros Hsp Hd Hp. exists (Spec.ResourceGroup sp), (Spec.Name sp).
  by rewrite (Reconcile_run _ _ _ _ _ Hsp), Hd, Hp.
Qed.

Lemma derived_resource_exists st a sp :
  load_spec (st_heap st) a = Some sp ->
  cidr_ok sp -> policy_ok sp ->
  exists v, derived_resource GoSyntax s st (PtrSpec (Some a)) v.
Proof.
  intros Hsp [dns Hd]%dns_of_ok [policy Hp]%policy_of_ok.
  eexists. by apply (derived_resource_intro _ _ _ _ _ Hsp Hd Hp).
Qed.

Lemma Get_run (st : state W) a sp :
  load_spec (st_heap st) a = Some sp ->
  Get s (PtrSpec (Some a)) st =
    let res := Client_Get (Client_ s) (Spec.ResourceGroup sp) (Spec.Name sp)
                 (st_world st) in
    (Returns (Some res.1.1, res.1.2),
     {| st_heap := st_heap st; st_world := res.2;
        st_calls := st_calls st
                    ++ [CallGet (Spec.ResourceGroup sp) (Spec.Name sp)] |}).
Proof.
  intros Hsp. unfold Get. cbn [assert_PtrSpec].
  unfold bind at 1. rewrite (deref_run _ _ _ Hsp). cbn [snd].
  unfold bind, call_Get, ret.
  by destruct (Client_Get _ _ _ _) as [[r err] w].
Qed.

Lemma Delete_run (st : state W) a sp :
  load_spec (st_heap st) a = Some sp ->
  Delete ResourceNotFound s (PtrSpec (Some a)) st =
    let res := Client_Delete (Client_ s) (Spec.ResourceGroup sp) (Spec.Name sp)
                 (st_world st) in
    (Returns (match res.1 with
              | Some err =>
                  if ResourceNotFound err then None
                  else Some (Delete_error sp err)
              | None => None
              end),
     {| st_heap := st_heap st; st_world := res.2;
        st_calls := st_calls st
                    ++ [CallDelete (Spec.ResourceGroup sp) (Spec.Name sp)] |}).
Proof.
  intros Hsp. unfold Delete. cbn [assert_PtrSpec].
  unfold bind at 1. rewrite (deref_run _ _ _ Hsp). cbn [snd].
  unfold bind, call_Delete, ret.
  destruct (Client_Delete _ _ _ _) as [[err|] w]; [|done].
  cbn [fst snd]. by destruct (ResourceNotFound err).
Qed.

Lemma EqualFold_length s1 s2 :
  strings.EqualFold s1 s2 = true -> String.length s1 = String.length s2.
Proof.
  revert s2. induction s1 as [|c s1 IH]; intros [|c2 s2]; simpl; try done.
  repeat case_match; try done; intros ?; f_equal; by apply IH.
Qed.

Lemma EqualFold_Calico_not_Azure p :
  strings.EqualFold p "Calico" = true -> strings.EqualFold p "Azure" = false.
Proof.
  intros H. apply EqualFold_length in H.
  destruct (strings.EqualFold p "Azure") eqn:E; [|done].
  apply EqualFold_length in E. rewrite E in H. discriminate.
Qed.

(** C1 (amended).  For a [Spec] whose [ServiceCIDR] is not empty and parses,
    the resource [Reconcile] derives carries the [ServiceCIDR] verbatim and,
    as DNS service IP, the text of the address that [net.ParseCIDR] returns
    (the address as written before the slash, in its 16-byte form, host bits
    kept) with byte 15 overwritten by 10.  For ["10.96.0.0/12"] this is
    ["10.96.0.10"], which lies in the network of the CIDR and ends in 10.
    For an empty [ServiceCIDR] no DNS service IP is set. *)
Theorem C1_dns_service_ip (st : state W) a sp v :
  load_spec (st_heap st) a = Some sp ->
  derived_resource GoSyntax s st (PtrSpec (Some a)) v ->
  let np := NetworkProfile (Properties v) in
  (forall ip n,
      Spec.ServiceCIDR sp <> EmptyString ->
      net.ParseCIDR (Spec.ServiceCIDR sp) = inl (ip, n) ->
      ServiceCidr np = Some (Spec.ServiceCIDR sp)
      /\ DNSServiceIP np = Some (net.String_ (<[15%nat := 10]> ip)))
  /\ (Spec.ServiceCIDR sp = "10.96.0.0/12" ->
      DNSServiceIP np = Some "10.96.0.10"
      /\ exists ip n,
           net.ParseCIDR "10.96.0.0/12" = inl (ip, n)
           /\ net.String_ (<[15%nat := 10]> ip) = "10.96.0.10"
           /\ net.Contains n (<[15%nat := 10]> ip) = true
           /\ (<[15%nat := 10]> ip) !! 15%nat = Some 10)
  /\ (Spec.ServiceCIDR sp = EmptyString -> DNSServiceIP np = None).
Proof.
  intros Hsp Hv.
  destruct (derived_resource_inv _ _ _ _ Hsp Hv) as (dns & policy & Hd & _ & ->).
  cbn [resource_of Properties NetworkProfile ServiceCidr DNSServiceIP].
  unfold dns_of in Hd. split_and!.
  - intros ip n Hne Hp. rewrite bool_decide_true in Hd |- * by done.
    rewrite Hp in Hd. split; [done|]. by injection Hd as <-.
  - intros Hc. rewrite Hc in Hd. split.
    + vm_compute in Hd. by injection Hd as <-.
    + eexists _, _. split; [by vm_compute|]. by vm_compute.
  - intros Hc. rewrite Hc in Hd. vm_compute in Hd. by injection Hd as <-.
Qed.

(** C2.  For a pointer to a [Spec], if the client's delete reports an error
    that [ResourceNotFound] recognises, [Delete] returns nil; any other error
    of the client is returned, wrapped. *)
Theorem C2_delete_idempotent (st : state W) a sp :
  load_spec (st_heap st) a = Some sp ->
  let res := Client_Delete (Client_ s) (Spec.ResourceGroup sp) (Spec.Name sp)
               (st_world st) in
  (forall err, res.1 = Some err -> ResourceNotFound err = true ->
               (Delete ResourceNotFound s (PtrSpec (Some a)) st).1 = Returns None)
  /\ (forall err, res.1 = Some err -> ResourceNotFound err = false ->
               (Delete ResourceNotFound s (PtrSpec (Some a)) st).1
               = Returns (Some (withMessage err
                                  ("failed to delete managed cluster "
                                   +:+ Spec.Name sp
                                   +:+ " in resource group "
                                   +:+ Spec.ResourceGroup sp))))
  /\ (res.1 = None -> (Delete ResourceNotFound s (PtrSpec (Some a)) st).1 = Returns None).
Proof.
  intros Hsp res. rewrite (Delete_run _ _ _ Hsp). fold res. cbn [fst].
  split_and!.
  - by intros err -> ->.
  - by intros err -> ->.
  - by intros ->.
Qed.

(** C3 (amended).  With [NetworkPolicy] set to a value equal to "Azure"
    under case folding, [Reconcile] derives a resource whenever the
    [ServiceCIDR] is empty or parses, and the resource has the Azure policy;
    likewise "Calico" and the Calico policy.  With any other value, and a
    [ServiceCIDR] that is empty or parses, [Reconcile] fails, calls nothing,
    and the message of its error lists 'calico' and 'azure'.  With
    [NetworkPolicy] nil a resource is derived as well, and its field is left
    at its zero value. *)
Theorem C3_network_policy (st : state W) a sp :
  load_spec (st_heap st) a = Some sp ->
  (forall p, Spec.NetworkPolicy sp = Some p ->
             strings.EqualFold p "Azure" = true ->
             (cidr_ok sp ->
              exists v, derived_resource GoSyntax s st (PtrSpec (Some a)) v)
             /\ forall v,
                  derived_resource GoSyntax s st (PtrSpec (Some a)) v ->
                  NetworkPolicy (NetworkProfile (Properties v)) = NetworkPolicyAzure)
  /\ (forall p, Spec.NetworkPolicy sp = Some p ->
             strings.EqualFold p "Calico" = true ->
             (cidr_ok sp ->
              exists v, derived_resource GoSyntax s st (PtrSpec (Some a)) v)
             /\ forall v,
                  derived_resource GoSyntax s st (PtrSpec (Some a)) v ->
                  NetworkPolicy (NetworkProfile (Properties v)) = NetworkPolicyCalico)
  /\ (forall p, Spec.NetworkPolicy sp = Some p ->
               strings.EqualFold p "Azure" = false ->
               strings.EqualFold p "Calico" = false ->
               (Spec.ServiceCIDR sp = EmptyString
                \/ exists ip n, net.ParseCIDR (Spec.ServiceCIDR sp) = inl (ip, n)) ->
               exists e,
                 (Reconcile GoSyntax s (PtrSpec (Some a)) st).1 = Returns (Some e)
                 /\ Error e = "invalid network policy: '" +:+ p
                              +:+ "'. Allowed options are 'calico' and 'azure'"
                 /\ names e "'calico'" = true /\ names e "'azure'" = true
                 /\ st_calls (Reconcile GoSyntax s (PtrSpec (Some a)) st).2 = st_calls st)
  /\ (Spec.NetworkPolicy sp = None ->
      (cidr_ok sp ->
       exists v, derived_resource GoSyntax s st (PtrSpec (Some a)) v)
      /\ forall v,
           derived_resource GoSyntax s st (PtrSpec (Some a)) v ->
           NetworkPolicy (NetworkProfile (Properties v)) = EmptyString)
  /\ (strings.EqualFold "Azure" "Azure" = true
      /\ strings.EqualFold "azure" "Azure" = true
      /\ strings.EqualFold "Calico" "Calico" = true
      /\ strings.EqualFold "calico" "Calico" = true
      /\ strings.EqualFold "weave" "Azure" = false
      /\ strings.EqualFold "weave" "Calico" = false).
Proof.
  intros Hsp. split_and!; try done.
  - intros p Hp HA. split.
    + intros Hc. apply (derived_resource_exists _ _ _ Hsp Hc).
      unfold policy_ok. rewrite Hp. by left.
    + intros v Hv.
      destruct (derived_resource_inv _ _ _ _ Hsp Hv)
        as (dns & policy & _ & Hpol & ->).
      unfold policy_of in Hpol. rewrite Hp, HA in Hpol. by injection Hpol as <-.
  - intros p Hp HC. split.
    + intros Hc. apply (derived_resource_exists _ _ _ Hsp Hc).
      unfold policy_ok. rewrite Hp. by right.
    + intros v Hv.
      destruct (derived_resource_inv _ _ _ _ Hsp Hv)
        as (dns & policy & _ & Hpol & ->).
      unfold policy_of in Hpol.
      rewrite Hp, (EqualFold_Calico_not_Azure _ HC), HC in Hpol.
      by injection Hpol as <-.
  - intros p Hp HA HC Hcidr.
    assert (Hd : exists dns, dns_of sp = inr dns).
    { unfold dns_of. destruct Hcidr as [->|(ip & n & ->)].
      - by eexists.
      - destruct (bool_decide _); by eexists. }
    destruct Hd as [dns Hd].
    rewrite (Reconcile_run _ _ _ _ _ Hsp), Hd.
    unfold policy_of. rewrite Hp, HA, HC. eexists. split; [done|].
    cbn [Error]. split; [done|]. unfold names. cbn [Error]. split_and!.
    + rewrite <- (append_assoc _ p).
      apply (contains_mid _ "'. Allowed options are " "'calico'" " and 'azure'").
    + rewrite <- (append_assoc _ p).
      apply (contains_mid _ "'. Allowed options are 'calico' and " "'azure'"
               EmptyString).
    + done.
  - intros Hp. split.
    + intros Hc. apply (derived_resource_exists _ _ _ Hsp Hc).
      unfold policy_ok. by rewrite Hp.
    + intros v Hv.
      destruct (derived_resource_inv _ _ _ _ Hsp Hv)
        as (dns & policy & _ & Hpol & ->).
      unfold policy_of in Hpol. rewrite Hp in Hpol. by injection Hpol as <-.
Qed.

(** C4 (amended).  For a value whose dynamic type is not [*Spec], each of
    [Get], [Reconcile] and [Delete] returns the error "expected managed
    cluster specification" and leaves the state as it was: no call reaches
    the client.  [GetCredentials] takes a group and a name, two strings, and
    no specification: it has no such guard and always calls the client. *)
Theorem C4_wrong_type (st : state W) (spec : iface) :
  (forall p, spec <> PtrSpec p) ->
  Get s spec st = (Returns (None, Some expected_spec), st)
  /\ Reconcile GoSyntax s spec st = (Returns (Some expected_spec), st)
  /\ Delete ResourceNotFound s spec st = (Returns (Some expected_spec), st)
  /\ Error expected_spec = "expected managed cluster specification"
  /\ (forall group name,
        st_calls (GetCredentials s group name st).2
        = st_calls st ++ [CallGetCredentials group name]).
Proof.
  intros Hspec.
  assert (Hguard : assert_PtrSpec spec = None).
  { destruct spec; try done. by destruct (Hspec p). }
  unfold Get, Reconcile, Delete. rewrite Hguard. split_and!; try done.
  intros group name. unfold GetCredentials, call_GetCredentials.
  by destruct (Client_GetCredentials _ _ _ _) as [r w].
Qed.

(** C5.  For a pointer to a [Spec] whose [ServiceCIDR] is not empty and does
    not parse, [Reconcile] returns an error that wraps the parse error, and
    leaves the state as it was: the client is not called.  The text
    "not-a-cidr" does not parse. *)
Theorem C5_invalid_cidr (st : state W) a sp err :
  load_spec (st_heap st) a = Some sp ->
  Spec.ServiceCIDR sp <> EmptyString ->
  net.ParseCIDR (Spec.ServiceCIDR sp) = inr err ->
  Reconcile GoSyntax s (PtrSpec (Some a)) st
  = (Returns (Some (wrapError ("failed to parse service cidr: " +:+ Error err) err)),
     st)
  /\ st_calls (Reconcile GoSyntax s (PtrSpec (Some a)) st).2 = st_calls st
  /\ net.ParseCIDR "not-a-cidr" = inr (ParseError "CIDR address" "not-a-cidr").
Proof.
  intros Hsp Hne Hp.
  assert (Hd : dns_of sp
               = inl (wrapError ("failed to parse service cidr: " +:+ Error err) err)).
  { unfold dns_of. by rewrite bool_decide_true, Hp. }
  rewrite (Reconcile_run _ _ _ _ _ Hsp), Hd. by split_and!.
Qed.

(** C6.  Whenever the [ServiceCIDR] is empty or parses and the
    [NetworkPolicy] is nil or accepted, [Reconcile] derives a resource.  In
    the derived resource, the load-balancer SKU is [Standard] when
    [LoadBalancerSKU] is nil and the given value otherwise; the network
    plugin is [Azure] when [NetworkPlugin] is nil and the given value
    otherwise; the network policy is left at its zero value when
    [NetworkPolicy] is nil. *)
Theorem C6_defaults (st : state W) a sp :
  load_spec (st_heap st) a = Some sp ->
  (cidr_ok sp -> policy_ok sp ->
   exists v, derived_resource GoSyntax s st (PtrSpec (Some a)) v)
  /\ forall v,
       derived_resource GoSyntax s st (PtrSpec (Some a)) v ->
       let np := NetworkProfile (Properties v) in
       (Spec.LoadBalancerSKU sp = None -> LoadBalancerSku np = Standard)
       /\ (Spec.NetworkPlugin sp = None -> NetworkPlugin np = Azure)
       /\ (Spec.NetworkPolicy sp = None -> NetworkPolicy np = EmptyString)
       /\ (forall x, Spec.LoadBalancerSKU sp = Some x -> LoadBalancerSku np = x)
       /\ (forall x, Spec.NetworkPlugin sp = Some x -> NetworkPlugin np = x).
Proof.
  intros Hsp. split; [by apply derived_resource_exists|]. intros v Hv.
  destruct (derived_resource_inv _ _ _ _ Hsp Hv) as (dns & policy & _ & Hpol & ->).
  cbn [resource_of Properties NetworkProfile LoadBalancerSku NetworkPlugin
       NetworkPolicy].
  split_and!.
  - by intros ->.
  - by intros ->.
  - intros Hp. unfold policy_of in Hpol. rewrite Hp in Hpol. by injection Hpol.
  - by intros x ->.
  - by intros x ->.
Qed.

(** What the derived resource holds for the agent pools: one profile per
    pool, in order, with the VM size of that pool, and in every profile the
    name, the disk size and the count of the last pool. *)
Lemma derived_agent_pools (st : state W) a sp v :
  load_spec (st_heap st) a = Some sp ->
  derived_resource GoSyntax s st (PtrSpec (Some a)) v ->
  let pool := List.last (Spec.AgentPools sp) PoolSpec.zero in
  AgentPoolProfiles (Properties v)
  = map (fun elem =>
           {| Name := Some (PoolSpec.Name pool);
              VMSize := PoolSpec.SKU elem;
              OsDiskSizeGB := Some (PoolSpec.OSDiskSizeGB pool);
              Count := Some (PoolSpec.Replicas pool);
              Type_ := VirtualMachineScaleSets |})
        (Spec.AgentPools sp).
Proof.
  intros Hsp Hv.
  by destruct (derived_resource_inv _ _ _ _ Hsp Hv) as (dns & policy & _ & _ & ->).
Qed.

(** C8 (amended).  An error [err] of the client comes back from [Delete]
    (unless [ResourceNotFound] holds of it) inside an error whose text gives
    the operation, the cluster name and the resource group; from [Reconcile]
    as a new error whose text gives the operation and the Go-syntax
    rendering of [err], and neither the name nor the group; from [Get]
    unchanged. *)
Theorem C8_provider_errors (st : state W) a sp err :
  load_spec (st_heap st) a = Some sp ->
  (let res := Client_Delete (Client_ s) (Spec.ResourceGroup sp) (Spec.Name sp)
                (st_world st) in
   res.1 = Some err -> ResourceNotFound err = false ->
   exists e,
     (Delete ResourceNotFound s (PtrSpec (Some a)) st).1 = Returns (Some e)
     /\ e = withMessage err
              ("failed to delete managed cluster " +:+ Spec.Name sp
               +:+ " in resource group " +:+ Spec.ResourceGroup sp)
     /\ names e "delete managed cluster" = true
     /\ names e (Spec.Name sp) = true
     /\ names e (Spec.ResourceGroup sp) = true)
  /\ (forall v,
        derived_resource GoSyntax s st (PtrSpec (Some a)) v ->
        (Client_CreateOrUpdate (Client_ s) (Spec.ResourceGroup sp) (Spec.Name sp)
           v (st_world st)).1 = Some err ->
        (Reconcile GoSyntax s (PtrSpec (Some a)) st).1
        = Returns (Some (errorString
                           ("failed to create or update managed cluster, "
                            +:+ GoSyntax err))))
  /\ (let res := Client_Get (Client_ s) (Spec.ResourceGroup sp) (Spec.Name sp)
                   (st_world st) in
      res.1.2 = Some err ->
      (Get s (PtrSpec (Some a)) st).1 = Returns (Some res.1.1, Some err)).
Proof.
  intros Hsp. split_and!.
  - intros res Hres Hnf. rewrite (Delete_run _ _ _ Hsp). fold res.
    cbn [fst]. rewrite Hres, Hnf. eexists. split; [done|]. split; [done|].
    unfold names. cbn [Error]. split_and!.
    + by do 2 apply contains_append_l.
    + apply contains_append_l, contains_append_r, contains_append_l,
        contains_refl.
    + apply contains_append_l. do 3 apply contains_append_r.
      apply contains_refl.
  - intros v Hv Herr.
    destruct (derived_resource_inv _ _ _ _ Hsp Hv) as (dns & policy & Hd & Hpol & ->).
    rewrite (Reconcile_run _ _ _ _ _ Hsp), Hd, Hpol. cbn [fst]. by rewrite Herr.
  - intros res Hres. rewrite (Get_run _ _ _ Hsp). fold res. cbn [fst].
    by rewrite Hres.
Qed.

(** C9.  Every object that is in the heap before a call of [Get],
    [GetCredentials], [Reconcile] or [Delete] is in it, unchanged, after the
    call, whatever the argument and whether the call returns nil, an error
    or panics: the operations write to objects they allocate themselves
    only.  In particular the [Spec] the argument points to, with its tags,
    its agent pools and its scalar fields, is as it was.  (The client is
    given the resource by value in this model: it cannot write through the
    pointers into the [Spec] that the Go resource holds.) *)
Theorem C9_spec_not_mutated (st : state W) (spec : iface) (group name : string)
    (a : nat) (o : object) :
  st_heap st !! a = Some o ->
  st_heap (Get s spec st).2 !! a = Some o
  /\ st_heap (GetCredentials s group name st).2 !! a = Some o
  /\ st_heap (Reconcile GoSyntax s spec st).2 !! a = Some o
  /\ st_heap (Delete ResourceNotFound s spec st).2 !! a = Some o.
Proof.
  intros Ho.
  assert (Hgc : st_heap (GetCredentials s group name st).2 !! a = Some o).
  { unfold GetCredentials, call_GetCredentials.
    by destruct (Client_GetCredentials _ _ _ _) as [r w]. }
  destruct spec as [|p| | | |];
    try (unfold Get, Reconcile, Delete; by split_and!).
  destruct p as [b|]; [|unfold Get, Reconcile, Delete; by split_and!].
  destruct (load_spec (st_heap st) b) as [sp|] eqn:Hsp.
  - rewrite (Get_run _ _ _ Hsp), (Delete_run _ _ _ Hsp),
      (Reconcile_run _ _ _ _ _ Hsp).
    split_and!; try done.
    destruct (dns_of sp) as [e|dns]; [done|].
    destruct (policy_of sp) as [e|policy]; cbn [snd st_heap grow];
      by apply lookup_app_l_Some.
  - unfold Get, Reconcile, Delete, bind, deref. cbn [assert_PtrSpec].
    rewrite Hsp. by split_and!.
Qed.

(** C10.  For the nil pointer of type [*Spec] the type assertion holds, so
    [Get], [Reconcile] and [Delete] do not return the error "expected
    managed cluster specification": they go on to evaluate a field of the
    nil pointer and panic, before any call to the client. *)
Theorem C10_nil_pointer (st : state W) :
  assert_PtrSpec (PtrSpec None) = Some None
  /\ Get s (PtrSpec None) st = (Panics nil_dereference, st)
  /\ Reconcile GoSyntax s (PtrSpec None) st = (Panics nil_dereference, st)
  /\ Delete ResourceNotFound s (PtrSpec None) st = (Panics nil_dereference, st).
Proof. by split_and!. Qed.

End Claims.

(** ** The claims at concrete inputs *)

Module examples.
Import double containerservice.

(** The provider's side as this package drives it: [Reconcile] creates the
    cluster, [Get] then returns it, [Delete] removes it, and a second [Delete]
    returns nil too. *)
Example create_get_delete_delete :
  let spec := PtrSpec (Some 0%nat) in
  let st1 := (Reconcile goSyntax in_memory spec (start spec0 ∅)).2 in
  let st2 := (Delete is404 in_memory spec st1).2 in
  (Get in_memory spec (start spec0 ∅)).1 = Returns (Some None, Some not_found)
  /\ (Get in_memory spec st1).1 = Returns (Some (Some resource0), None)
  /\ (Delete is404 in_memory spec st1).1 = Returns None
  /\ (Get in_memory spec st2).1 = Returns (Some None, Some not_found)
  /\ (Delete is404 in_memory spec st2).1 = Returns None
  /\ st_calls (Delete is404 in_memory spec st2).2
     = [CallCreateOrUpdate "rg1" "c1" resource0; CallDelete "rg1" "c1";
        CallDelete "rg1" "c1"].
Proof. by vm_compute. Qed.

Lemma derived0 :
  derived_resource goSyntax in_memory (start spec0 ∅) (PtrSpec (Some 0%nat))
    resource0.
Proof. exists "rg1", "c1". by vm_compute. Qed.

(** C1, counterexample.  For the service CIDR "10.96.5.7/12" the network is
    10.96.0.0/12, whose first address with the low-order byte set to 10 is
    10.96.0.10; [Reconcile] derives 10.96.5.10. *)
Lemma C1_counterexample :
  exists v ip n,
    derived_resource goSyntax in_memory (start (spec_with "10.96.5.7/12" None) ∅)
      (PtrSpec (Some 0%nat)) v
    /\ net.ParseCIDR "10.96.5.7/12" = inl (ip, n)
    /\ DNSServiceIP (NetworkProfile (Properties v)) = Some "10.96.5.10"
    /\ spec_network_dns n = "10.96.0.10"
    /\ DNSServiceIP (NetworkProfile (Properties v)) <> Some (spec_network_dns n).
Proof.
  exists (resource_of (spec_with "10.96.5.7/12" None) (Some "10.96.5.10")
            EmptyString).
  eexists _, _. split_and!.
  - exists "rg1", "c1". by vm_compute.
  - by vm_compute.
  - done.
  - by vm_compute.
  - by vm_compute.
Qed.

Lemma C1_witness :
  load_spec (st_heap (start spec0 (∅ : cloud))) 0 = Some spec0
  /\ derived_resource goSyntax in_memory (start spec0 ∅) (PtrSpec (Some 0%nat))
       resource0
  /\ DNSServiceIP (NetworkProfile (Properties resource0)) = Some "10.96.0.10".
Proof.
  split; [reflexivity|]. split; [exact derived0|].
  exact (proj1 (proj1 (proj2
           (C1_dns_service_ip goSyntax in_memory (start spec0 ∅) 0%nat spec0
              resource0 eq_refl derived0)) eq_refl)).
Defined.

(** The provider holds no cluster: its delete reports "not found". *)
Lemma C2_witness :
  load_spec (st_heap (start spec0 (∅ : cloud))) 0 = Some spec0
  /\ (Client_Delete memory "rg1" "c1" ∅).1 = Some not_found
  /\ is404 not_found = true
  /\ (Delete is404 in_memory (PtrSpec (Some 0%nat)) (start spec0 ∅)).1
     = Returns None.
Proof.
  split; [reflexivity|]. split; [reflexivity|]. split; [reflexivity|].
  exact (proj1 (C2_delete_idempotent is404 in_memory (start spec0 ∅) 0%nat
                  spec0 eq_refl) not_found eq_refl eq_refl).
Defined.

(** C3, counterexample.  With a service CIDR that does not parse and the
    network policy "weave", [Reconcile] fails on the CIDR: the message of
    its error lists neither 'calico' nor 'azure'. *)
Lemma C3_counterexample :
  exists e,
    (Reconcile goSyntax in_memory (PtrSpec (Some 0%nat))
       (start (spec_with "not-a-cidr" (Some "weave")) ∅)).1
    = Returns (Some e)
    /\ Error e = "failed to parse service cidr: invalid CIDR address: not-a-cidr"
    /\ names e "calico" = false
    /\ names e "azure" = false.
Proof. eexists. split; [by vm_compute|]. by vm_compute. Qed.

(** "azure" and "CaLiCo" are accepted and give the Azure and the Calico
    policy; "weave" is refused. *)
Lemma C3_witness :
  (load_spec (st_heap (start (spec_with "10.96.0.0/12" (Some "azure"))
                          (∅ : cloud))) 0
   = Some (spec_with "10.96.0.0/12" (Some "azure"))
   /\ cidr_ok (spec_with "10.96.0.0/12" (Some "azure"))
   /\ exists v,
        derived_resource goSyntax in_memory
          (start (spec_with "10.96.0.0/12" (Some "azure")) ∅)
          (PtrSpec (Some 0%nat)) v
        /\ NetworkPolicy (NetworkProfile (Properties v)) = "azure")
  /\ (load_spec (st_heap (start spec_bare (∅ : cloud))) 0 = Some spec_bare
      /\ cidr_ok spec_bare
      /\ exists v,
           derived_resource goSyntax in_memory (start spec_bare ∅)
             (PtrSpec (Some 0%nat)) v
           /\ NetworkPolicy (NetworkProfile (Properties v)) = "calico")
  /\ (load_spec (st_heap (start (spec_with "10.96.0.0/12" (Some "weave"))
                             (∅ : cloud))) 0
      = Some (spec_with "10.96.0.0/12" (Some "weave"))
      /\ exists e,
           (Reconcile goSyntax in_memory (PtrSpec (Some 0%nat))
              (start (spec_with "10.96.0.0/12" (Some "weave")) ∅)).1
           = Returns (Some e)
           /\ Error e = "invalid network policy: 'weave'. Allowed options are 'calico' and 'azure'").
Proof.
  assert (Hc : cidr_ok (spec_with "10.96.0.0/12" (Some "azure"))).
  { right. by eexists _, _. }
  assert (Hb : cidr_ok spec_bare) by by left.
  split_and!.
  - reflexivity.
  - exact Hc.
  - destruct (proj1 (C3_network_policy goSyntax in_memory
                       (start (spec_with "10.96.0.0/12" (Some "azure")) ∅) 0%nat
                       (spec_with "10.96.0.0/12" (Some "azure")) eq_refl)
                "azure" eq_refl eq_refl) as [Hex Hall].
    destruct (Hex Hc) as [v Hv]. exists v. split; [exact Hv|exact (Hall v Hv)].
  - reflexivity.
  - exact Hb.
  - destruct (proj1 (proj2 (C3_network_policy goSyntax in_memory
                              (start spec_bare ∅) 0%nat spec_bare eq_refl))
                "CaLiCo" eq_refl eq_refl) as [Hex Hall].
    destruct (Hex Hb) as [v Hv]. exists v. split; [exact Hv|exact (Hall v Hv)].
  - reflexivity.
  - destruct (proj1 (proj2 (proj2
                (C3_network_policy goSyntax in_memory
                   (start (spec_with "10.96.0.0/12" (Some "weave")) ∅) 0%nat
                   (spec_with "10.96.0.0/12" (Some "weave")) eq_refl)))
                "weave" eq_refl eq_refl eq_refl
                (or_intror (ex_intro _ _ (ex_intro _ _ eq_refl))))
      as (e & He & Hm & _).
    exists e. split; [exact He|exact Hm].
Defined.

(** C4, counterexample.  After [Reconcile] has created the cluster,
    [GetCredentials] is called with two strings: it calls the client and
    returns no error. *)
Lemma C4_counterexample :
  let st := (Reconcile goSyntax in_memory (PtrSpec (Some 0%nat))
               (start spec0 ∅)).2 in
  exists bytes,
    (GetCredentials in_memory "rg1" "c1" st).1 = Returns (bytes, None)
    /\ st_calls (GetCredentials in_memory "rg1" "c1" st).2
       = st_calls st ++ [CallGetCredentials "rg1" "c1"].
Proof. eexists. split; by vm_compute. Qed.

Lemma C4_witness :
  (forall p, ValSpec spec0 <> PtrSpec p)
  /\ Reconcile goSyntax in_memory (ValSpec spec0) (start spec0 ∅)
     = (Returns (Some expected_spec), start spec0 ∅).
Proof.
  split; [discriminate|].
  exact (proj1 (proj2
           (C4_wrong_type is404 goSyntax in_memory (start spec0 ∅)
              (ValSpec spec0) (fun p H => eq_ind (ValSpec spec0)
                 (fun x => match x with ValSpec _ => True | _ => False end)
                 I _ H)))).
Defined.

Lemma C5_witness :
  load_spec (st_heap (start (spec_with "not-a-cidr" None) (∅ : cloud))) 0
  = Some (spec_with "not-a-cidr" None)
  /\ Spec.ServiceCIDR (spec_with "not-a-cidr" None) <> EmptyString
  /\ net.ParseCIDR "not-a-cidr" = inr (ParseError "CIDR address" "not-a-cidr")
  /\ st_calls (Reconcile goSyntax in_memory (PtrSpec (Some 0%nat))
                 (start (spec_with "not-a-cidr" None) ∅)).2 = [].
Proof.
  split; [reflexivity|]. split; [discriminate|]. split; [reflexivity|].
  exact (proj1 (proj2
           (C5_invalid_cidr goSyntax in_memory
              (start (spec_with "not-a-cidr" None) ∅) 0%nat
              (spec_with "not-a-cidr" None)
              (ParseError "CIDR address" "not-a-cidr")
              eq_refl
              (fun H => eq_ind "not-a-cidr"
                 (fun x => match x with EmptyString => False | _ => True end)
                 I _ H)
              eq_refl))).
Defined.

(** With overrides ([spec_bare]: SKU "gold", plugin "none") and without
    ([spec0]). *)
Lemma C6_witness :
  (load_spec (st_heap (start spec_bare (∅ : cloud))) 0 = Some spec_bare
   /\ cidr_ok spec_bare /\ policy_ok spec_bare
   /\ exists v,
        derived_resource goSyntax in_memory (start spec_bare ∅)
          (PtrSpec (Some 0%nat)) v
        /\ LoadBalancerSku (NetworkProfile (Properties v)) = "gold"
        /\ NetworkPlugin (NetworkProfile (Properties v)) = "none")
  /\ (load_spec (st_heap (start spec0 (∅ : cloud))) 0 = Some spec0
      /\ cidr_ok spec0 /\ policy_ok spec0
      /\ exists v,
           derived_resource goSyntax in_memory (start spec0 ∅)
             (PtrSpec (Some 0%nat)) v
           /\ LoadBalancerSku (NetworkProfile (Properties v)) = Standard
           /\ NetworkPlugin (NetworkProfile (Properties v)) = Azure
           /\ NetworkPolicy (NetworkProfile (Properties v)) = EmptyString).
Proof.
  assert (Hcb : cidr_ok spec_bare) by by left.
  assert (Hpb : policy_ok spec_bare) by by right.
  assert (Hc0 : cidr_ok spec0).
  { right. by eexists _, _. }
  assert (Hp0 : policy_ok spec0) by exact I.
  split_and!; try done.
  - destruct (C6_defaults goSyntax in_memory (start spec_bare ∅) 0%nat spec_bare
                eq_refl) as [Hex Hall].
    destruct (Hex Hcb Hpb) as [v Hv]. exists v. split; [exact Hv|].
    destruct (Hall v Hv) as (_ & _ & _ & Hlb & Hpl).
    split; [exact (Hlb "gold" eq_refl)|exact (Hpl "none" eq_refl)].
  - destruct (C6_defaults goSyntax in_memory (start spec0 ∅) 0%nat spec0
                eq_refl) as [Hex Hall].
    destruct (Hex Hc0 Hp0) as [v Hv]. exists v. split; [exact Hv|].
    destruct (Hall v Hv) as (Hlb & Hpl & Hpo & _).
    split_and!; [exact (Hlb eq_refl)|exact (Hpl eq_refl)|exact (Hpo eq_refl)].
Defined.

(** C7, at agentPools = [pool-a; pool-b].  The derived resource has two
    profiles, with the VM sizes of the two pools in order; both profiles
    carry the name, the disk size and the count of pool-b. *)
Theorem C7_profiles_share_range_variable :
  exists v,
    derived_resource goSyntax in_memory (start spec0 ∅) (PtrSpec (Some 0%nat)) v
    /\ map PoolSpec.Name (Spec.AgentPools spec0) = ["pool-a"; "pool-b"]
    /\ map Name (AgentPoolProfiles (Properties v))
       = [Some "pool-b"; Some "pool-b"]
    /\ map VMSize (AgentPoolProfiles (Properties v))
       = ["Standard_D2s_v3"; "Standard_D4s_v3"]
    /\ map OsDiskSizeGB (AgentPoolProfiles (Properties v)) = [Some 256; Some 256]
    /\ map Count (AgentPoolProfiles (Properties v)) = [Some 5; Some 5]
    /\ map Type_ (AgentPoolProfiles (Properties v))
       = [VirtualMachineScaleSets; VirtualMachineScaleSets].
Proof. exists resource0. split; [exact derived0|]. by vm_compute. Qed.

(** C8, counterexample.  The client fails with "boom" on a cluster c1 in
    group rg1: [Get] returns that error as it is, and [Reconcile] an error
    whose text has the operation and the rendering of the error; neither
    text has the cluster name or the resource group. *)
Lemma C8_counterexample :
  (Get (broken boom) (PtrSpec (Some 0%nat)) (start spec0 tt)).1
  = Returns (Some tt, Some boom)
  /\ names boom "c1" = false /\ names boom "rg1" = false
  /\ exists e,
       (Reconcile goSyntax (broken boom) (PtrSpec (Some 0%nat))
          (start spec0 tt)).1 = Returns (Some e)
       /\ Error e = "failed to create or update managed cluster, &errors.errorString{s:"
                   +:+ quote +:+ "boom" +:+ quote +:+ "}"
       /\ names e "c1" = false /\ names e "rg1" = false.
Proof.
  split; [by vm_compute|]. split; [by vm_compute|]. split; [by vm_compute|].
  eexists. split; [by vm_compute|]. by vm_compute.
Qed.

Lemma C8_witness :
  load_spec (st_heap (start spec0 tt)) 0 = Some spec0
  /\ (Client_Delete (failing boom) "rg1" "c1" tt).1 = Some boom
  /\ is404 boom = false
  /\ exists e,
       (Delete is404 (broken boom) (PtrSpec (Some 0%nat)) (start spec0 tt)).1
       = Returns (Some e)
       /\ Error e = "failed to delete managed cluster c1 in resource group rg1: boom".
Proof.
  split; [reflexivity|]. split; [reflexivity|]. split; [reflexivity|].
  destruct (proj1 (C8_provider_errors is404 goSyntax (broken boom)
                     (start spec0 tt) 0%nat spec0 boom eq_refl)
              eq_refl eq_refl) as (e & He & -> & _).
  eexists. split; [exact He|reflexivity].
Defined.

Lemma C9_witness :
  st_heap (start spec0 (∅ : cloud)) !! 0%nat = Some (ObjSpec spec0)
  /\ st_heap (Reconcile goSyntax in_memory (PtrSpec (Some 0%nat))
                (start spec0 ∅)).2 !! 0%nat = Some (ObjSpec spec0).
Proof.
  split; [reflexivity|].
  exact (proj1 (proj2 (proj2
           (C9_spec_not_mutated is404 goSyntax in_memory (start spec0 ∅)
              (PtrSpec (Some 0%nat)) "rg1" "c1" 0%nat (ObjSpec spec0)
              eq_refl)))).
Defined.

End examples.


(** * Further properties of the service *)

(** ** More on the library functions [Reconcile] calls *)

Module net_more.
Import net GoString.

Lemma parseIPv4_loop_IPv4 k i s p ip :
  parseIPv4_loop k i s p = Some ip -> exists a b c d, ip = IPv4 a b c d.
Proof.
  revert i s p. induction k as [|k IH]; intros i s p; simpl.
  - destruct (len s =? 0)%nat; [|discriminate]. intros [= <-]. by eexists _, _, _, _.
  - destruct (len s =? 0)%nat; [discriminate|].
    destruct (if (0 <? i)%nat then _ else _) as [s1|]; [|discriminate].
    destruct (dtoi s1) as [[n c] ok].
    destruct (negb ok || (255 <? n)); [discriminate|]. apply IH.
Qed.

Lemma CIDRMask_loop_length l n : length (CIDRMask_loop l n) = l.
Proof.
  revert n. induction l as [|l IH]; intros n; simpl; [done|].
  destruct (8 <=? n); simpl; by rewrite IH.
Qed.

(** A CIDR whose mask has four bytes is an IPv4 CIDR: the address is the
    16-byte form of an IPv4 address, and the network is its four bytes under
    the mask. *)
Lemma ParseCIDR_v4 s ip n :
  ParseCIDR s = inl (ip, n) ->
  length (IPNet_Mask n) = IPv4len ->
  exists a b c d,
    ip = IPv4 a b c d
    /\ IPNet_IP n = zip_with Z.land [a; b; c; d] (IPNet_Mask n).
Proof.
  unfold ParseCIDR. destruct (cut _ s) as [[addr mask]|]; [|discriminate].
  pose (addr_of (r : list Z * IPNet + error) :=
          match r with inl p => p.1 | inr _ => [] end).
  pose (net_of (r : list Z * IPNet + error) :=
          match r with
          | inl p => p.2
          | inr _ => {| IPNet_IP := []; IPNet_Mask := [] |}
          end).
  destruct (parseIPv4 addr) as [ip4|] eqn:H4.
  - destruct (dtoi mask) as [[m i] ok].
    destruct (_ || _); [discriminate|].
    intros H Hlen.
    pose proof (f_equal addr_of H) as Hip. cbn [addr_of fst] in Hip.
    pose proof (f_equal net_of H) as Hn. cbn [net_of snd] in Hn.
    subst ip n. cbn [IPNet_Mask IPNet_IP] in *.
    destruct (parseIPv4_loop_IPv4 _ _ _ _ _ H4) as (a & b & c & d & ->).
    exists a, b, c, d. split; [done|].
    destruct (CIDRMask m IPv4len) as [|m0 [|m1 [|m2 [|m3 [|]]]]];
      try discriminate Hlen.
    reflexivity.
  - destruct (dtoi mask) as [[m i] ok].
    destruct (parseIPv6 addr) as [ip6|]; [|discriminate].
    destruct (_ || _); [discriminate|].
    intros H Hlen.
    pose proof (f_equal net_of H) as Hn. cbn [net_of snd] in Hn.
    subst n. cbn [IPNet_Mask] in Hlen.
    unfold CIDRMask in Hlen. rewrite CIDRMask_loop_length in Hlen. discriminate.
Qed.

(** The network of an IPv4 CIDR whose mask ends in a zero byte (a prefix of
    at most 24 bits) contains every address that has the first three bytes of
    the address of the CIDR. *)
Lemma Contains_v4_last_byte a b c d e m0 m1 m2 :
  Contains {| IPNet_IP := zip_with Z.land [a; b; c; d] [m0; m1; m2; 0];
              IPNet_Mask := [m0; m1; m2; 0] |}
           (IPv4 a b c e) = true.
Proof.
  unfold Contains, networkNumberAndMask, To4, IPv4. cbn.
  rewrite <- !Z.land_assoc, !Z.land_diag, !Z.land_0_r, !Z.eqb_refl. done.
Qed.

End net_more.

(** [strings.EqualFold] holds of two texts exactly when they are equal once
    their ASCII capital letters are made small. *)
Lemma EqualFold_lower s t :
  strings.EqualFold s t = true <-> lower_bytes s = lower_bytes t.
Proof.
  revert t. induction s as [|a s IH]; intros [|b t].
  - done.
  - split; [done|]. discriminate.
  - split; [done|]. discriminate.
  - unfold lower_bytes. cbn [list_ascii_of_string map strings.EqualFold].
    fold (lower_bytes s). fold (lower_bytes t).
    change (GoString.byte_of "A"%char) with 65.
    change (GoString.byte_of "Z"%char) with 90.
    change (GoString.byte_of "a"%char) with 97.
    change strings.RuneSelf with 128.
    set (x := GoString.byte_of a). set (y := GoString.byte_of b).
    specialize (IH t).
    assert (Hcons : forall u v : Z,
               u :: lower_bytes s = v :: lower_bytes t
               <-> u = v /\ lower_bytes s = lower_bytes t).
    { intros u v. split; [by intros [= -> ->]|by intros [-> ->]]. }
    rewrite Hcons, <- IH.
    destruct (Z.eqb_spec y x) as [E1|E1].
    { rewrite E1. tauto. }
    destruct (Z.ltb_spec y x) as [E2|E2].
    + destruct (Z.ltb_spec x 128), (Z.leb_spec 65 y), (Z.leb_spec y 90),
        (Z.eqb_spec x (y + 97 - 65)), (Z.leb_spec 65 x), (Z.leb_spec x 90); cbn;
        intuition (try discriminate; lia).
    + destruct (Z.ltb_spec y 128), (Z.leb_spec 65 x), (Z.leb_spec x 90),
        (Z.eqb_spec y (x + 97 - 65)), (Z.leb_spec 65 y), (Z.leb_spec y 90); cbn;
        intuition (try discriminate; lia).
Qed.

(** ** More on the four operations *)

Section Further.
Context {W R : Type}.
Variable ResourceNotFound : error -> bool.
Variable GoSyntax : error -> string.
Variable s : @Service W R.

Import containerservice.

Lemma derived_resource_iff (st : state W) a sp :
  load_spec (st_heap st) a = Some sp ->
  (exists v, derived_resource GoSyntax s st (PtrSpec (Some a)) v)
  <-> exists dns policy, dns_of sp = inr dns /\ policy_of sp = inr policy.
Proof.
  intros Hsp. split.
  - intros [v Hv].
    destruct (derived_resource_inv GoSyntax s _ _ _ _ Hsp Hv)
      as (dns & policy & ? & ? & _).
    by exists dns, policy.
  - intros (dns & policy & Hd & Hp). eexists.
    by apply (derived_resource_intro GoSyntax s _ _ _ _ _ Hsp Hd Hp).
Qed.

(** X1.  Whatever its argument, [Reconcile] either calls the client once,
    with [CreateOrUpdate] for the resource group and the name of the [Spec],
    or does not call it and leaves the provider as it is.  It never calls
    another operation of the client and never calls twice. *)
Theorem Reconcile_calls_at_most_once (st : state W) (spec : iface) :
  let st' := (Reconcile GoSyntax s spec st).2 in
  (st_calls st' = st_calls st /\ st_world st' = st_world st)
  \/ exists a sp v,
       spec = PtrSpec (Some a)
       /\ load_spec (st_heap st) a = Some sp
       /\ st_calls st'
          = st_calls st
            ++ [CallCreateOrUpdate (Spec.ResourceGroup sp) (Spec.Name sp) v]
       /\ st_world st'
          = (Client_CreateOrUpdate (Client_ s) (Spec.ResourceGroup sp)
               (Spec.Name sp) v (st_world st)).2.
Proof.
  destruct spec as [|p| | | |]; try by left.
  destruct p as [a|]; [|by left].
  destruct (load_spec (st_heap st) a) as [sp|] eqn:Hsp.
  - cbn zeta. rewrite (Reconcile_run _ _ _ _ _ Hsp).
    destruct (dns_of sp) as [e|dns]; [by left|].
    destruct (policy_of sp) as [e|policy]; [by left|].
    right. by eexists a, sp, _.
  - left. unfold Reconcile, bind, deref. cbn [assert_PtrSpec]. by rewrite Hsp.
Qed.

(** X2.  [Reconcile] validates two things and nothing else: it reaches the
    client exactly when the service CIDR is empty or parses and the network
    policy is nil or equal to "Azure" or "Calico" under case folding.  The
    name, the location, the version, the SSH key, the pod CIDR, the SKUs and
    the agent pools are not checked. *)
Theorem Reconcile_validates_cidr_and_policy_only (st : state W) a sp :
  load_spec (st_heap st) a = Some sp ->
  (exists v, derived_resource GoSyntax s st (PtrSpec (Some a)) v)
  <-> cidr_ok sp /\ policy_ok sp.
Proof.
  intros Hsp. rewrite (derived_resource_iff _ _ _ Hsp).
  rewrite <- dns_of_ok, <- policy_of_ok. split.
  - intros (dns & policy & ? & ?). split; by eexists.
  - intros [[dns ?] [policy ?]]. by exists dns, policy.
Qed.

(** X3.  On a pointer to a [Spec], [Reconcile] returns nil exactly when it
    has called [CreateOrUpdate] and that call has returned nil. *)
Theorem Reconcile_nil_iff (st : state W) a sp :
  load_spec (st_heap st) a = Some sp ->
  (Reconcile GoSyntax s (PtrSpec (Some a)) st).1 = Returns None
  <-> exists v,
        derived_resource GoSyntax s st (PtrSpec (Some a)) v
        /\ (Client_CreateOrUpdate (Client_ s) (Spec.ResourceGroup sp)
              (Spec.Name sp) v (st_world st)).1 = None.
Proof.
  intros Hsp. split.
  - intros Hnil. rewrite (Reconcile_run _ _ _ _ _ Hsp) in Hnil.
    destruct (dns_of sp) as [e|dns] eqn:Hd; [done|].
    destruct (policy_of sp) as [e|policy] eqn:Hp; [done|].
    exists (resource_of sp dns policy). split.
    + by apply derived_resource_intro.
    + cbn [fst] in Hnil.
      by destruct (Client_CreateOrUpdate _ _ _ _ _).1.
  - intros (v & Hv & Hc).
    destruct (derived_resource_inv GoSyntax s _ _ _ _ Hsp Hv)
      as (dns & policy & Hd & Hp & ->).
    rewrite (Reconcile_run _ _ _ _ _ Hsp), Hd, Hp. cbn [fst]. by rewrite Hc.
Qed.

(** X4.  The derived resource always has a system-assigned identity, the
    admin user "azureuser", the client id "msi", the cluster name as DNS
    prefix, the version and the location of the [Spec], and exactly one SSH
    public key, which is the key of the [Spec] as it is, empty or not. *)
Theorem Reconcile_fixed_fields (st : state W) a sp v :
  load_spec (st_heap st) a = Some sp ->
  derived_resource GoSyntax s st (PtrSpec (Some a)) v ->
  Identity_Type v = "SystemAssigned"
  /\ Location v = Some (Spec.Location sp)
  /\ DNSPrefix (Properties v) = Some (Spec.Name sp)
  /\ KubernetesVersion (Properties v) = Some (Spec.Version sp)
  /\ AdminUsername (LinuxProfile_ (Properties v)) = Some "azureuser"
  /\ SSH_PublicKeys (LinuxProfile_ (Properties v)) = [Some (Spec.SSHPublicKey sp)]
  /\ ServicePrincipalProfile_ClientID (Properties v) = Some "msi".
Proof.
  intros Hsp Hv.
  by destruct (derived_resource_inv GoSyntax s _ _ _ _ Hsp Hv)
    as (dns & policy & _ & _ & ->).
Qed.

(** X5.  The pod CIDR is in the derived resource, verbatim, exactly when it
    is not empty. *)
Theorem Reconcile_pod_cidr (st : state W) a sp v :
  load_spec (st_heap st) a = Some sp ->
  derived_resource GoSyntax s st (PtrSpec (Some a)) v ->
  (Spec.PodCIDR sp <> EmptyString ->
   PodCidr (NetworkProfile (Properties v)) = Some (Spec.PodCIDR sp))
  /\ (Spec.PodCIDR sp = EmptyString ->
      PodCidr (NetworkProfile (Properties v)) = None).
Proof.
  intros Hsp Hv.
  destruct (derived_resource_inv GoSyntax s _ _ _ _ Hsp Hv)
    as (dns & policy & _ & _ & ->).
  cbn [resource_of Properties NetworkProfile PodCidr]. split; intros H.
  - by rewrite bool_decide_true.
  - rewrite bool_decide_false; [done|]. by intros H'.
Qed.

(** X6.  The tags of the [Spec] do not reach the provider: a [Spec] that
    differs in its tags only gives the same derived resource, from any state
    and at any address. *)
Theorem Reconcile_ignores_tags (st st' : state W) a a' sp tags v :
  load_spec (st_heap st) a = Some sp ->
  load_spec (st_heap st') a' = Some (with_Tags tags sp) ->
  derived_resource GoSyntax s st (PtrSpec (Some a)) v ->
  derived_resource GoSyntax s st' (PtrSpec (Some a')) v.
Proof.
  intros Hsp Hsp' Hv.
  destruct (derived_resource_inv GoSyntax s _ _ _ _ Hsp Hv)
    as (dns & policy & Hd & Hp & ->).
  change (resource_of sp dns policy)
    with (resource_of (with_Tags tags sp) dns policy).
  by apply derived_resource_intro.
Qed.

(** X7.  The derived resource has one profile per agent pool, with the VM
    sizes of the pools in the order of the pools and the type
    "VirtualMachineScaleSets" in each; without agent pools it has no
    profile. *)
Theorem Reconcile_agent_pool_shape (st : state W) a sp v :
  load_spec (st_heap st) a = Some sp ->
  derived_resource GoSyntax s st (PtrSpec (Some a)) v ->
  let profiles := AgentPoolProfiles (Properties v) in
  length profiles = length (Spec.AgentPools sp)
  /\ map VMSize profiles = map PoolSpec.SKU (Spec.AgentPools sp)
  /\ Forall (fun p => Type_ p = "VirtualMachineScaleSets") profiles
  /\ (Spec.AgentPools sp = [] -> profiles = []).
Proof.
  intros Hsp Hv.
  destruct (derived_resource_inv GoSyntax s _ _ _ _ Hsp Hv)
    as (dns & policy & _ & _ & ->).
  cbn [resource_of Properties AgentPoolProfiles]. unfold profiles_of.
  split_and!.
  - by rewrite length_map.
  - rewrite map_map. done.
  - apply Forall_map. by apply Forall_true.
  - by intros ->.
Qed.

(** X8.  When the client reads the derived resource, every profile has the
    name, the disk size and the count of the last agent pool of the [Spec].
    With one agent pool the profile is that of the pool. *)
Theorem Reconcile_agent_pool_fields (st : state W) a sp v :
  load_spec (st_heap st) a = Some sp ->
  derived_resource GoSyntax s st (PtrSpec (Some a)) v ->
  let profiles := AgentPoolProfiles (Properties v) in
  (forall pool, last (Spec.AgentPools sp) = Some pool ->
     Forall (fun p => Name p = Some (PoolSpec.Name pool)
                      /\ OsDiskSizeGB p = Some (PoolSpec.OSDiskSizeGB pool)
                      /\ Count p = Some (PoolSpec.Replicas pool))
            profiles)
  /\ (forall pool, Spec.AgentPools sp = [pool] ->
        profiles = [ {| Name := Some (PoolSpec.Name pool);
                        VMSize := PoolSpec.SKU pool;
                        OsDiskSizeGB := Some (PoolSpec.OSDiskSizeGB pool);
                        Count := Some (PoolSpec.Replicas pool);
                        Type_ := "VirtualMachineScaleSets" |} ]).
Proof.
  intros Hsp Hv.
  destruct (derived_resource_inv GoSyntax s _ _ _ _ Hsp Hv)
    as (dns & policy & _ & _ & ->).
  cbn [resource_of Properties AgentPoolProfiles]. unfold profiles_of. split.
  - intros pool Hlast.
    assert (Hl : List.last (Spec.AgentPools sp) PoolSpec.zero = pool).
    { revert Hlast. generalize PoolSpec.zero.
      induction (Spec.AgentPools sp) as [|x l IH]; intros d; [done|].
      destruct l as [|y l]; [by intros [= ->]|].
      intros H. apply (IH d H). }
    rewrite Hl. apply Forall_map. by apply Forall_true.
  - by intros pool ->.
Qed.

(** X9.  For a service CIDR whose address is the IPv4 address x.y.z.w, the
    DNS service IP of the derived resource is the text x.y.z.10, whatever the
    prefix length. *)
Theorem Reconcile_dns_ip_v4 (st : state W) a sp v x y z w n :
  load_spec (st_heap st) a = Some sp ->
  derived_resource GoSyntax s st (PtrSpec (Some a)) v ->
  net.ParseCIDR (Spec.ServiceCIDR sp) = inl (net.IPv4 x y z w, n) ->
  DNSServiceIP (NetworkProfile (Properties v))
  = Some (net.ubtoa x +:+ "." +:+ net.ubtoa y +:+ "." +:+ net.ubtoa z +:+ ".10").
Proof.
  intros Hsp Hv Hp.
  destruct (derived_resource_inv GoSyntax s _ _ _ _ Hsp Hv)
    as (dns & policy & Hd & _ & ->).
  cbn [resource_of Properties NetworkProfile DNSServiceIP].
  unfold dns_of in Hd.
  destruct (decide (Spec.ServiceCIDR sp = EmptyString)) as [E|E].
  { rewrite E in Hp. discriminate Hp. }
  rewrite bool_decide_true, Hp in Hd by done.
  injection Hd as <-. reflexivity.
Qed.

(** X10.  For an IPv4 service CIDR whose mask ends in a zero byte (a prefix
    of at most 24 bits), the DNS service IP of the derived resource lies in
    the network of the CIDR. *)
Theorem Reconcile_dns_ip_in_cidr (st : state W) a sp v ip n m0 m1 m2 :
  load_spec (st_heap st) a = Some sp ->
  derived_resource GoSyntax s st (PtrSpec (Some a)) v ->
  net.ParseCIDR (Spec.ServiceCIDR sp) = inl (ip, n) ->
  net.IPNet_Mask n = [m0; m1; m2; 0] ->
  DNSServiceIP (NetworkProfile (Properties v))
  = Some (net.String_ (<[15%nat := 10]> ip))
  /\ net.Contains n (<[15%nat := 10]> ip) = true.
Proof.
  intros Hsp Hv Hp Hm.
  destruct (derived_resource_inv GoSyntax s _ _ _ _ Hsp Hv)
    as (dns & policy & Hd & _ & ->).
  cbn [resource_of Properties NetworkProfile DNSServiceIP].
  split.
  - unfold dns_of in Hd.
    destruct (decide (Spec.ServiceCIDR sp = EmptyString)) as [E|E].
    { rewrite E in Hp. discriminate Hp. }
    rewrite bool_decide_true, Hp in Hd by done. by injection Hd as <-.
  - destruct (net_more.ParseCIDR_v4 _ _ _ Hp) as (x & y & z & w & -> & Hn).
    { by rewrite Hm. }
    destruct n as [nip nmask]. cbn [net.IPNet_IP net.IPNet_Mask] in *.
    subst nip nmask. apply (net_more.Contains_v4_last_byte x y z w 10).
Qed.

(** X11.  A second [Reconcile] of the same [Spec], run after the first,
    calls the client with the same resource: the derived resource depends on
    the [Spec] only, not on what earlier runs have left in memory or at the
    provider. *)
Theorem Reconcile_twice_same_resource (st : state W) a sp v :
  load_spec (st_heap st) a = Some sp ->
  derived_resource GoSyntax s st (PtrSpec (Some a)) v ->
  derived_resource GoSyntax s (Reconcile GoSyntax s (PtrSpec (Some a)) st).2
    (PtrSpec (Some a)) v.
Proof.
  intros Hsp Hv.
  destruct (derived_resource_inv GoSyntax s _ _ _ _ Hsp Hv)
    as (dns & policy & Hd & Hp & ->).
  apply derived_resource_intro; [|done..].
  rewrite (Reconcile_run _ _ _ _ _ Hsp), Hd, Hp. cbn [snd st_heap].
  by apply load_spec_app.
Qed.

(** X12.  On a pointer to a [Spec] no operation panics: each of [Get],
    [Reconcile] and [Delete] returns.  In particular the write to byte 15 of
    the parsed address is in range for every service CIDR that parses. *)
Theorem operations_return (st : state W) a sp :
  load_spec (st_heap st) a = Some sp ->
  (exists r, (Get s (PtrSpec (Some a)) st).1 = Returns r)
  /\ (exists r, (Reconcile GoSyntax s (PtrSpec (Some a)) st).1 = Returns r)
  /\ (exists r, (Delete ResourceNotFound s (PtrSpec (Some a)) st).1 = Returns r).
Proof.
  intros Hsp.
  rewrite (Get_run s _ _ _ Hsp), (Delete_run ResourceNotFound s _ _ _ Hsp),
    (Reconcile_run _ _ _ _ _ Hsp).
  split_and!; [by eexists| |by eexists].
  destruct (dns_of sp) as [e|dns]; [by eexists|].
  destruct (policy_of sp) as [e|policy]; by eexists.
Qed.

(** X13.  With a service CIDR that passes, a network policy is accepted
    exactly when it is "azure" or "calico" once its ASCII capital letters are
    made small: any mix of cases passes, and nothing else does (no
    surrounding blanks, no other spelling). *)
Theorem Reconcile_accepts_policy_iff (st : state W) a sp p :
  load_spec (st_heap st) a = Some sp ->
  Spec.NetworkPolicy sp = Some p ->
  cidr_ok sp ->
  (exists v, derived_resource GoSyntax s st (PtrSpec (Some a)) v)
  <-> lower_bytes p = lower_bytes "azure" \/ lower_bytes p = lower_bytes "calico".
Proof.
  intros Hsp Hp Hc. rewrite (derived_resource_iff _ _ _ Hsp).
  change (lower_bytes "azure") with (lower_bytes "Azure").
  change (lower_bytes "calico") with (lower_bytes "Calico").
  rewrite <- !EqualFold_lower.
  apply dns_of_ok in Hc. destruct Hc as [dns Hd]. split.
  - intros (_ & policy & _ & Hpol).
    assert (Hok : policy_ok sp) by (apply policy_of_ok; by eexists).
    unfold policy_ok in Hok. by rewrite Hp in Hok.
  - intros Hok. assert (Hok' : policy_ok sp).
    { unfold policy_ok. by rewrite Hp. }
    apply policy_of_ok in Hok'. destruct Hok' as [policy ?].
    by exists dns, policy.
Qed.

End Further.

(** ** The further properties at concrete inputs *)

Module further_examples.
Import double containerservice.

Lemma derived_bare :
  derived_resource goSyntax in_memory (start spec_bare ∅) (PtrSpec (Some 0%nat))
    (resource_of spec_bare None "calico").
Proof. exists "rg1", EmptyString. by vm_compute. Qed.

Lemma derived_hostbits :
  derived_resource goSyntax in_memory (start (spec_with "10.96.5.7/12" None) ∅)
    (PtrSpec (Some 0%nat))
    (resource_of (spec_with "10.96.5.7/12" None) (Some "10.96.5.10") EmptyString).
Proof. exists "rg1", "c1". by vm_compute. Qed.

(** A service CIDR with a prefix of more than 24 bits: the derived DNS
    service IP, 10.0.0.10, is outside 10.0.0.0/30, and [Reconcile] goes on. *)
Example dns_ip_outside_small_cidr :
  exists v ip n,
    derived_resource goSyntax in_memory (start (spec_with "10.0.0.0/30" None) ∅)
      (PtrSpec (Some 0%nat)) v
    /\ DNSServiceIP (NetworkProfile (Properties v)) = Some "10.0.0.10"
    /\ net.ParseCIDR "10.0.0.0/30" = inl (ip, n)
    /\ net.Contains n (<[15%nat := 10]> ip) = false.
Proof.
  exists (resource_of (spec_with "10.0.0.0/30" None) (Some "10.0.0.10") EmptyString).
  eexists _, _. split_and!.
  - exists "rg1", "c1". by vm_compute.
  - done.
  - by vm_compute.
  - by vm_compute.
Qed.

Lemma Reconcile_validates_witness :
  load_spec (st_heap (start spec_bare (∅ : cloud))) 0 = Some spec_bare
  /\ exists v,
       derived_resource goSyntax in_memory (start spec_bare ∅)
         (PtrSpec (Some 0%nat)) v.
Proof.
  split; [reflexivity|].
  exact (proj2 (Reconcile_validates_cidr_and_policy_only goSyntax in_memory
                  (start spec_bare ∅) 0%nat spec_bare eq_refl)
           (conj (or_introl eq_refl) (or_intror eq_refl))).
Defined.

Lemma Reconcile_nil_witness :
  load_spec (st_heap (start spec0 (∅ : cloud))) 0 = Some spec0
  /\ (Reconcile goSyntax in_memory (PtrSpec (Some 0%nat)) (start spec0 ∅)).1
     = Returns None.
Proof.
  split; [reflexivity|].
  exact (proj2 (Reconcile_nil_iff goSyntax in_memory (start spec0 ∅) 0%nat
                  spec0 eq_refl)
           (ex_intro _ resource0 (conj examples.derived0 eq_refl))).
Defined.

Lemma Reconcile_fixed_fields_witness :
  load_spec (st_heap (start spec_bare (∅ : cloud))) 0 = Some spec_bare
  /\ derived_resource goSyntax in_memory (start spec_bare ∅)
       (PtrSpec (Some 0%nat)) (resource_of spec_bare None "calico")
  /\ SSH_PublicKeys (LinuxProfile_ (Properties (resource_of spec_bare None "calico")))
     = [Some EmptyString].
Proof.
  split; [reflexivity|]. split; [exact derived_bare|].
  exact (proj1 (proj2 (proj2 (proj2 (proj2 (proj2
           (Reconcile_fixed_fields goSyntax in_memory (start spec_bare ∅) 0%nat
              spec_bare _ eq_refl derived_bare))))))).
Defined.

Lemma Reconcile_pod_cidr_witness :
  load_spec (st_heap (start spec_bare (∅ : cloud))) 0 = Some spec_bare
  /\ derived_resource goSyntax in_memory (start spec_bare ∅)
       (PtrSpec (Some 0%nat)) (resource_of spec_bare None "calico")
  /\ PodCidr (NetworkProfile (Properties (resource_of spec_bare None "calico")))
     = Some "no cidr".
Proof.
  split; [reflexivity|]. split; [exact derived_bare|].
  refine (proj1 (Reconcile_pod_cidr goSyntax in_memory (start spec_bare ∅) 0%nat
                   spec_bare _ eq_refl derived_bare) _).
  discriminate.
Defined.

Lemma Reconcile_ignores_tags_witness :
  load_spec (st_heap (start spec0 (∅ : cloud))) 0 = Some spec0
  /\ load_spec (st_heap (start (with_Tags ∅ spec0) (∅ : cloud))) 0
     = Some (with_Tags ∅ spec0)
  /\ derived_resource goSyntax in_memory (start spec0 ∅) (PtrSpec (Some 0%nat))
       resource0
  /\ derived_resource goSyntax in_memory (start (with_Tags ∅ spec0) ∅)
       (PtrSpec (Some 0%nat)) resource0.
Proof.
  split; [reflexivity|]. split; [reflexivity|]. split; [exact examples.derived0|].
  exact (Reconcile_ignores_tags goSyntax in_memory (start spec0 ∅)
           (start (with_Tags ∅ spec0) ∅) 0%nat 0%nat spec0 ∅ resource0
           eq_refl eq_refl examples.derived0).
Defined.

Lemma Reconcile_agent_pool_shape_witness :
  load_spec (st_heap (start spec0 (∅ : cloud))) 0 = Some spec0
  /\ derived_resource goSyntax in_memory (start spec0 ∅) (PtrSpec (Some 0%nat))
       resource0
  /\ map VMSize (AgentPoolProfiles (Properties resource0))
     = ["Standard_D2s_v3"; "Standard_D4s_v3"].
Proof.
  split; [reflexivity|]. split; [exact examples.derived0|].
  exact (proj1 (proj2
           (Reconcile_agent_pool_shape goSyntax in_memory (start spec0 ∅) 0%nat
              spec0 resource0 eq_refl examples.derived0))).
Defined.

Lemma Reconcile_agent_pool_fields_witness :
  load_spec (st_heap (start spec0 (∅ : cloud))) 0 = Some spec0
  /\ derived_resource goSyntax in_memory (start spec0 ∅) (PtrSpec (Some 0%nat))
       resource0
  /\ map PoolSpec.Name (Spec.AgentPools spec0) = ["pool-a"; "pool-b"]
  /\ last (Spec.AgentPools spec0) = Some pool_b
  /\ length (AgentPoolProfiles (Properties resource0)) = 2%nat
  /\ Forall (fun p => Name p = Some "pool-b"
                      /\ OsDiskSizeGB p = Some 256 /\ Count p = Some 5)
       (AgentPoolProfiles (Properties resource0)).
Proof.
  split; [reflexivity|]. split; [exact examples.derived0|].
  split; [reflexivity|]. split; [reflexivity|]. split; [reflexivity|].
  exact (proj1 (Reconcile_agent_pool_fields goSyntax in_memory
                  (start spec0 ∅) 0%nat spec0 resource0 eq_refl
                  examples.derived0)
           pool_b eq_refl).
Defined.

Lemma Reconcile_dns_ip_v4_witness :
  load_spec (st_heap (start (spec_with "10.96.5.7/12" None) (∅ : cloud))) 0
  = Some (spec_with "10.96.5.7/12" None)
  /\ net.ParseCIDR "10.96.5.7/12"
     = inl (net.IPv4 10 96 5 7,
            {| net.IPNet_IP := [10; 96; 0; 0];
               net.IPNet_Mask := [255; 240; 0; 0] |})
  /\ DNSServiceIP (NetworkProfile (Properties
       (resource_of (spec_with "10.96.5.7/12" None) (Some "10.96.5.10")
          EmptyString)))
     = Some "10.96.5.10".
Proof.
  split; [reflexivity|]. split; [reflexivity|].
  exact (Reconcile_dns_ip_v4 goSyntax in_memory
           (start (spec_with "10.96.5.7/12" None) ∅) 0%nat
           (spec_with "10.96.5.7/12" None) _ 10 96 5 7
           {| net.IPNet_IP := [10; 96; 0; 0]; net.IPNet_Mask := [255; 240; 0; 0] |}
           eq_refl derived_hostbits eq_refl).
Defined.

Lemma Reconcile_dns_ip_in_cidr_witness :
  load_spec (st_heap (start (spec_with "10.96.5.7/12" None) (∅ : cloud))) 0
  = Some (spec_with "10.96.5.7/12" None)
  /\ net.Contains
       {| net.IPNet_IP := [10; 96; 0; 0]; net.IPNet_Mask := [255; 240; 0; 0] |}
       (<[15%nat := 10]> (net.IPv4 10 96 5 7)) = true.
Proof.
  split; [reflexivity|].
  exact (proj2 (Reconcile_dns_ip_in_cidr goSyntax in_memory
                  (start (spec_with "10.96.5.7/12" None) ∅) 0%nat
                  (spec_with "10.96.5.7/12" None) _ (net.IPv4 10 96 5 7)
                  {| net.IPNet_IP := [10; 96; 0; 0];
                     net.IPNet_Mask := [255; 240; 0; 0] |}
                  255 240 0 eq_refl derived_hostbits eq_refl eq_refl)).
Defined.

Lemma Reconcile_twice_witness :
  load_spec (st_heap (start spec0 (∅ : cloud))) 0 = Some spec0
  /\ derived_resource goSyntax in_memory (start spec0 ∅) (PtrSpec (Some 0%nat))
       resource0
  /\ derived_resource goSyntax in_memory
       (Reconcile goSyntax in_memory (PtrSpec (Some 0%nat)) (start spec0 ∅)).2
       (PtrSpec (Some 0%nat)) resource0.
Proof.
  split; [reflexivity|]. split; [exact examples.derived0|].
  exact (Reconcile_twice_same_resource goSyntax in_memory (start spec0 ∅) 0%nat
           spec0 resource0 eq_refl examples.derived0).
Defined.

Lemma operations_return_witness :
  load_spec (st_heap (start spec0 (∅ : cloud))) 0 = Some spec0
  /\ exists r,
       (Reconcile goSyntax in_memory (PtrSpec (Some 0%nat)) (start spec0 ∅)).1
       = Returns r.
Proof.
  split; [reflexivity|].
  exact (proj1 (proj2 (operations_return is404 goSyntax in_memory
                         (start spec0 ∅) 0%nat spec0 eq_refl))).
Defined.

Lemma Reconcile_accepts_policy_witness :
  load_spec (st_heap (start spec_bare (∅ : cloud))) 0 = Some spec_bare
  /\ Spec.NetworkPolicy spec_bare = Some "CaLiCo"
  /\ cidr_ok spec_bare
  /\ exists v,
       derived_resource goSyntax in_memory (start spec_bare ∅)
         (PtrSpec (Some 0%nat)) v.
Proof.
  split; [reflexivity|]. split; [reflexivity|]. split; [by left|].
  exact (proj2 (Reconcile_accepts_policy_iff goSyntax in_memory
                  (start spec_bare ∅) 0%nat spec_bare "CaLiCo" eq_refl eq_refl
                  (or_introl eq_refl))
           (or_intror eq_refl)).
Defined.

End further_examples.
